(** * Pairwise distances between tensors: [utilmy.deeplearning.keras.util_similarity]

    A shallow embedding of the [tf_cdist] family
    (src/utilmy/deeplearning/keras/util_similarity.py) and the proofs of its
    specified properties.

    The module is written against TensorFlow, which is not part of the
    repository.  Its arithmetic is therefore a parameter of the embedding
    (class [Arithmetic]); two instances are used:
    - [R_arith], exact real arithmetic, for the statements the specification
      makes "mathematically";
    - [binary32], IEEE-754 single precision as given by the Standard Library's
      [SpecFloat] with [prec = 24] and [emax = 128], which is the [tf.float32]
      the module casts to.

    Python exceptions and the sequence of TensorFlow calls are kept explicit:
    a computation is a pair of the calls it made and of its outcome.

    Conventions of the embedding.  An input is a rank-2 array that carries its
    shape, its elements already in the working precision.  TensorFlow does
    not fix the order in which [tf.reduce_sum] and [tf.matmul] accumulate; the
    embedding accumulates from [0.0] in index order, and [tf.pow(_, 2.0)] is
    one multiplication.  The single-precision examples below have one or two
    columns of small integers, so that the sums in them are exact whatever
    the order. *)

From Stdlib Require Import String.
From Stdlib Require Import List ZArith Lia Bool Arith.
From Stdlib Require Import Reals Lra.
From Stdlib Require Import Floats.SpecFloat.
Import ListNotations.

Set Implicit Arguments.

(* ================================================================= *)
(** ** Python side: exceptions, calls and the computation monad *)

(** The exceptions the module can end with: the [ValueError] of Python (raised
    by [tf_cdist] itself and by [tf.convert_to_tensor] on a ragged sequence),
    and [tf.errors.InvalidArgumentError], raised by a TensorFlow kernel. *)
Inductive exception : Type :=
| ValueError (msg : string)
| InvalidArgumentError (msg : string).

(** The TensorFlow entry points the module calls. *)
Inductive tf_op : Type :=
| ConvertToTensor | Cast | Shape | Pow | ReduceSum | Reshape | Tile
| Transpose | MatMul | Multiply | Subtract | TfAdd | TrueDiv
| Greater | Sqrt | Where | Norm.

Inductive outcome (A : Type) : Type :=
| Return (a : A)
| Raise (e : exception).
Arguments Raise {A} e.

(** A computation: the TensorFlow calls made so far, in order, and the
    outcome. *)
Definition M (A : Type) : Type := (list tf_op * outcome A)%type.

Definition ret {A} (a : A) : M A := ([], Return a).

Definition bind {A B} (m : M A) (k : A -> M B) : M B :=
  match m with
  | (tr, Return a) => let (tr', o) := k a in (tr ++ tr', o)
  | (tr, Raise e) => (tr, Raise e)
  end.

Definition raise {A} (e : exception) : M A := ([], Raise e).

(** One TensorFlow call with its outcome. *)
Definition call {A} (op : tf_op) (o : outcome A) : M A := ([op], o).

Declare Scope py_scope.
Delimit Scope py_scope with py.
Notation "x <- m ;; k" := (bind m (fun x => k))
  (at level 61, m at next level, right associativity) : py_scope.
Open Scope py_scope.

(* ================================================================= *)
(** ** Tensors *)

(** A rank-2 array with its shape.  The same record is the array-like a
    caller passes in (a nested sequence, an ndarray or a tensor); only a
    nested Python sequence can be ragged, which is [wf = false].  A rank-1
    tensor is a list, its length being its shape. *)
Record tensor (E : Type) : Type := Tensor {
  nrows : nat;
  ncols : nat;
  rows : list (list E)
}.

Definition wfb {E} (t : tensor E) : bool :=
  (length (rows t) =? nrows t) &&
  forallb (fun r => length r =? ncols t) (rows t).

Definition wf {E} (t : tensor E) : Prop :=
  length (rows t) = nrows t /\
  Forall (fun r => length r = ncols t) (rows t).

(** The tensor of a non-empty nested list literal such as [[1, 2], [3, 4]]. *)
Definition of_rows {E} (rs : list (list E)) : tensor E :=
  Tensor (length rs) (length (hd [] rs)) rs.

(** Entry [(i, j)], when it exists. *)
Definition entry {E} (t : tensor E) (i j : nat) : option E :=
  match nth_error (rows t) i with
  | Some r => nth_error r j
  | None => None
  end.

(* ----------------------------------------------------------------- *)
(** *** List helpers *)

Fixpoint zip_with {A B C} (f : A -> B -> C) (l : list A) (l' : list B) : list C :=
  match l, l' with
  | a :: l, b :: l' => f a b :: zip_with f l l'
  | _, _ => []
  end.

(** [chunks r c v]: [r] consecutive slices of [c] elements of [v] (row-major
    layout of a reshaped vector). *)
Fixpoint chunks {A} (r c : nat) (v : list A) : list (list A) :=
  match r with
  | 0 => []
  | S r' => firstn c v :: chunks r' c (skipn c v)
  end.

(** The columns of [c]-column rows. *)
Fixpoint columns {A} (c : nat) (rs : list (list A)) : list (list A) :=
  match rs with
  | [] => repeat [] c
  | r :: rs' => zip_with cons r (columns c rs')
  end.

(** Broadcasting of one axis: a list of [n] items is used as it is when
    [n = k], and a single item is repeated [k] times. *)
Definition stretch {A} (n k : nat) (l : list A) : list A :=
  if n =? k then l else flat_map (fun x => repeat x k) l.

(** The shape two axes broadcast to. *)
Definition bdim (n m : nat) : option nat :=
  if n =? m then Some n
  else if n =? 1 then Some m
  else if m =? 1 then Some n
  else None.

Definition bcast {E} (r c : nat) (t : tensor E) : list (list E) :=
  map (stretch (ncols t) c) (stretch (nrows t) r (rows t)).

(* ================================================================= *)
(** ** The arithmetic of the numeric substrate *)

Class Arithmetic (T : Type) : Type := {
  num_zero : T;                 (* the literal 0.0 *)
  num_one : T;                  (* the literal 1.0 *)
  num_two : T;                  (* the literal 2.0 *)
  num_add : T -> T -> T;
  num_sub : T -> T -> T;
  num_mul : T -> T -> T;
  num_div : T -> T -> T;
  num_sqrt : T -> T;
  num_gt : T -> T -> bool       (* x > y *)
}.

(** Exact arithmetic. *)
#[export] Instance R_arith : Arithmetic R := {|
  num_zero := 0%R;
  num_one := 1%R;
  num_two := 2%R;
  num_add := Rplus;
  num_sub := Rminus;
  num_mul := Rmult;
  num_div := Rdiv;
  num_sqrt := sqrt;
  num_gt := fun x y => if Rlt_dec y x then true else false
|}.

(** [tf.float32]: IEEE-754 binary32, round to nearest even. *)
Module F32.
Definition prec : Z := 24.
Definition emax : Z := 128.
Definition of_Z (z : Z) : spec_float := binary_normalize prec emax z 0 false.
Definition is_finite (x : spec_float) : bool :=
  match x with S754_zero _ | S754_finite _ _ _ => true | _ => false end.
Definition is_zero (x : spec_float) : bool :=
  match x with S754_zero _ => true | _ => false end.
(** [0.0 <= x] *)
Definition nonneg (x : spec_float) : bool := SFleb (S754_zero false) x.
(** [x < 0.0] *)
Definition negative (x : spec_float) : bool := SFltb x (S754_zero false).
(** A zero of either sign, or a NaN. *)
Definition zero_or_nan (x : spec_float) : bool :=
  match x with S754_zero _ | S754_nan => true | _ => false end.
(** A row of zeros, of either sign. *)
Definition all_zero (u : list spec_float) : Prop :=
  Forall (fun x => is_zero x = true) u.
End F32.

#[export] Instance binary32 : Arithmetic spec_float := {|
  num_zero := S754_zero false;
  num_one := S754_finite false 8388608 (-23);
  num_two := S754_finite false 8388608 (-22);
  num_add := SFadd F32.prec F32.emax;
  num_sub := SFsub F32.prec F32.emax;
  num_mul := SFmul F32.prec F32.emax;
  num_div := SFdiv F32.prec F32.emax;
  num_sqrt := SFsqrt F32.prec F32.emax;
  num_gt := fun x y => SFltb y x
|}.

(* ================================================================= *)
(** ** The TensorFlow calls of the module *)

Section Engine.

Context {T : Type} {A : Arithmetic T}.

(** [tf.convert_to_tensor]: a ragged nested sequence is refused. *)
Definition tf_convert_to_tensor (x : tensor T) : M (tensor T) :=
  call ConvertToTensor
    (if wfb x then Return x
     else Raise (ValueError "Can't convert non-rectangular Python sequence to Tensor.")).

(** [tf.cast(_, dtype=tf.float32)].  The elements of an input are taken in the
    working precision [T] already, so that the cast keeps them. *)
Definition tf_cast (x : tensor T) : M (tensor T) := call Cast (Return x).

(** [tf.shape] *)
Definition tf_shape (x : tensor T) : M (nat * nat) :=
  call Shape (Return (nrows x, ncols x)).

(** [tf.pow(_, 2.0)]: the square of every element. *)
Definition tf_pow2 (x : tensor T) : M (tensor T) :=
  call Pow (Return (Tensor (nrows x) (ncols x)
                      (map (map (fun a => num_mul a a)) (rows x)))).

(** The sum of a row, accumulated from [0.0] in index order. *)
Definition reduce_sum (l : list T) : T := fold_left num_add l num_zero.

(** [tf.reduce_sum(_, axis=1)] *)
Definition tf_reduce_sum_axis1 (x : tensor T) : M (list T) :=
  call ReduceSum (Return (map reduce_sum (rows x))).

(** The shape a reshape to [shape] gives [total] elements; one component may
    be [-1] and is then inferred. *)
Definition resolve_shape (total : nat) (shape : Z * Z) : option (nat * nat) :=
  let (a, b) := shape in
  if (a =? -1)%Z then
    if (0 <? b)%Z && (total mod Z.to_nat b =? 0)
    then Some (total / Z.to_nat b, Z.to_nat b) else None
  else if (b =? -1)%Z then
    if (0 <? a)%Z && (total mod Z.to_nat a =? 0)
    then Some (Z.to_nat a, total / Z.to_nat a) else None
  else
    if (0 <=? a)%Z && (0 <=? b)%Z && (Z.to_nat a * Z.to_nat b =? total)
    then Some (Z.to_nat a, Z.to_nat b) else None.

(** [tf.reshape] of a rank-1 tensor to a rank-2 shape. *)
Definition tf_reshape (v : list T) (shape : Z * Z) : M (tensor T) :=
  call Reshape
    match resolve_shape (length v) shape with
    | Some (r, c) => Return (Tensor r c (chunks r c v))
    | None => Raise (InvalidArgumentError "Input to reshape is a tensor with a different number of values")
    end.

(** [tf.tile] *)
Definition tf_tile (x : tensor T) (multiples : nat * nat) : M (tensor T) :=
  let (a, b) := multiples in
  call Tile (Return (Tensor (nrows x * a) (ncols x * b)
    (concat (repeat (map (fun r => concat (repeat r b)) (rows x)) a)))).

(** [tf.transpose] *)
Definition tf_transpose (x : tensor T) : M (tensor T) :=
  call Transpose (Return (Tensor (ncols x) (nrows x) (columns (ncols x) (rows x)))).

(** The dot product of two rows. *)
Definition dot (u v : list T) : T := reduce_sum (zip_with num_mul u v).

(** [tf.matmul]: the inner dimensions must agree. *)
Definition tf_matmul (a b : tensor T) : M (tensor T) :=
  call MatMul
    (if ncols a =? nrows b
     then Return (Tensor (nrows a) (ncols b)
                    (map (fun u => map (dot u) (columns (ncols b) (rows b))) (rows a)))
     else Raise (InvalidArgumentError "Matrix size-incompatible")).

(** An elementwise binary operator, its operands broadcast to a common
    shape. *)
Definition elementwise {E F} (op : tf_op) (f : E -> T -> F)
    (x : tensor E) (y : tensor T) : M (tensor F) :=
  call op
    match bdim (nrows x) (nrows y), bdim (ncols x) (ncols y) with
    | Some r, Some c =>
        Return (Tensor r c (zip_with (zip_with f) (bcast r c x) (bcast r c y)))
    | _, _ => Raise (InvalidArgumentError "Incompatible shapes")
    end.

(** [x + y], [x - y] and [x / y] on tensors. *)
Definition tf_add : tensor T -> tensor T -> M (tensor T) := elementwise TfAdd num_add.
Definition tf_subtract : tensor T -> tensor T -> M (tensor T) := elementwise Subtract num_sub.
Definition tf_truediv : tensor T -> tensor T -> M (tensor T) := elementwise TrueDiv num_div.

(** An elementwise operation on one tensor; the other operand, if any, is a
    Python scalar. *)
Definition pointwise {E F} (op : tf_op) (f : E -> F) (x : tensor E) : M (tensor F) :=
  call op (Return (Tensor (nrows x) (ncols x) (map (map f) (rows x)))).

(** [c * x] and [c - x] for a Python float [c]; [x > c]; [tf.sqrt]. *)
Definition tf_scalar_multiply (c : T) : tensor T -> M (tensor T) :=
  pointwise Multiply (num_mul c).
Definition tf_scalar_subtract (c : T) : tensor T -> M (tensor T) :=
  pointwise Subtract (num_sub c).
Definition tf_greater (x : tensor T) (c : T) : M (tensor bool) :=
  pointwise Greater (fun a => num_gt a c) x.
Definition tf_sqrt : tensor T -> M (tensor T) := pointwise Sqrt num_sqrt.

(** [tf.where(condition, x, y)] for a Python float [y]. *)
Definition tf_where (condition : tensor bool) (x : tensor T) (y : T) : M (tensor T) :=
  elementwise Where (fun (b : bool) a => if b then a else y) condition x.

(** [tf.norm(_, axis=1)]: the square root of the sum of the squares of a row. *)
Definition norm (u : list T) : T := num_sqrt (reduce_sum (map (fun a => num_mul a a) u)).

Definition tf_norm_axis1 (x : tensor T) : M (list T) :=
  call Norm (Return (map norm (rows x))).

(* ================================================================= *)
(** ** The functions of [util_similarity.py] *)

Definition __cast_left_and_right_to_tensors (left right : tensor T)
  : M (tensor T * tensor T) :=
  left <- tf_convert_to_tensor left ;;
  left <- tf_cast left ;;
  right <- tf_convert_to_tensor right ;;
  right <- tf_cast right ;;
  ret (left, right).

Definition __get_rows_counts (left right : tensor T) : M (nat * nat) :=
  shape_left <- tf_shape left ;;
  shape_right <- tf_shape right ;;
  ret (fst shape_left, fst shape_right).

Definition __get_tensor_sqr (tensor_ : tensor T) (reshape_shape : Z * Z)
    (tile_shape : nat * nat) : M (tensor T) :=
  sqr <- tf_pow2 tensor_ ;;
  sqr <- tf_reduce_sum_axis1 sqr ;;
  sqr <- tf_reshape sqr reshape_shape ;;
  tf_tile sqr tile_shape.

(** Both callers pass [reshape_shape]; its default [None] (a rank-1 reshape to
    [tensor.shape[0]]) is not reached from [tf_cdist]. *)
Definition __get_tensor_reshaped_norm (tensor_ : tensor T) (reshape_shape : Z * Z)
  : M (tensor T) :=
  norm <- tf_norm_axis1 tensor_ ;;
  tf_reshape norm reshape_shape.

(** [tf_cdist_euclidean] up to its local [sqr_sum]. *)
Definition euclidean_sqr_sum (left right : tensor T) : M (tensor T) :=
  lr <- __cast_left_and_right_to_tensors left right ;;
  let (left, right) := lr in
  counts <- __get_rows_counts left right ;;
  let (rows_count_left, rows_count_right) := counts in
  left_sqr <- __get_tensor_sqr left (-1, 1)%Z (1, rows_count_right) ;;
  right_sqr <- __get_tensor_sqr right (1, -1)%Z (rows_count_left, 1) ;;
  right_t <- tf_transpose right ;;
  left_right_mat_mul <- tf_matmul left right_t ;;
  twice <- tf_scalar_multiply num_two left_right_mat_mul ;;
  diff <- tf_subtract left_sqr twice ;;
  tf_add diff right_sqr.

Definition tf_cdist_euclidean (left right : tensor T) : M (tensor T) :=
  sqr_sum <- euclidean_sqr_sum left right ;;
  positive <- tf_greater sqr_sum num_zero ;;
  root <- tf_sqrt sqr_sum ;;
  distance <- tf_where positive root num_zero ;;
  tf_cast distance.

Definition tf_cdist_cos (left right : tensor T) : M (tensor T) :=
  lr <- __cast_left_and_right_to_tensors left right ;;
  let (left, right) := lr in
  norm_left <- __get_tensor_reshaped_norm left (-1, 1)%Z ;;
  norm_right <- __get_tensor_reshaped_norm right (1, -1)%Z ;;
  right_t <- tf_transpose right ;;
  cross <- tf_matmul left right_t ;;
  quotient <- tf_truediv cross norm_left ;;
  cos <- tf_truediv quotient norm_right ;;
  distance <- tf_scalar_subtract num_one cos ;;
  tf_cast distance.

Definition err_msg (metric : string) : string :=
  ("Metric type not understood: value " ++ metric ++ " is not valid!")%string.

Definition tf_cdist (left right : tensor T) (metric : string) : M (tensor T) :=
  if String.eqb metric "euclidean" then tf_cdist_euclidean left right
  else if String.eqb metric "cosine" then tf_cdist_cos left right
  else raise (ValueError (err_msg metric)).

(* ================================================================= *)
(** ** What the routines compute, entry by entry *)

(** The squared norm of a row, as [__get_tensor_sqr] accumulates it. *)
Definition sqr_norm (u : list T) : T := reduce_sum (map (fun a => num_mul a a) u).

(** Entry of [sqr_sum] for the rows [u] of [left] and [v] of [right]. *)
Definition sqr_sum_entry (u v : list T) : T :=
  num_add (num_sub (sqr_norm u) (num_mul num_two (dot u v))) (sqr_norm v).

(** The [tf.where] of [tf_cdist_euclidean] on one entry. *)
Definition clamp (s : T) : T := if num_gt s num_zero then num_sqrt s else num_zero.

Definition euclidean_entry (u v : list T) : T := clamp (sqr_sum_entry u v).

(** Entry of the cosine distance for the rows [u] of [left] and [v] of
    [right]. *)
Definition cos_entry (u v : list T) : T :=
  num_sub num_one (num_div (num_div (dot u v) (norm u)) (norm v)).

(** The matrix of [f] over every row of [left] and every row of [right]. *)
Definition pairwise (f : list T -> list T -> T) (left right : tensor T) : tensor T :=
  Tensor (nrows left) (nrows right)
    (map (fun u => map (f u) (rows right)) (rows left)).

End Engine.

(** [m] makes the calls [tr] and returns [a]; [m] makes the calls [tr] and
    raises [e]. *)
Definition returns {A} (m : M A) (tr : list tf_op) (a : A) : Prop := m = (tr, Return a).
Definition raises {A} (m : M A) (tr : list tf_op) (e : exception) : Prop := m = (tr, Raise e).

(** The calls of a successful run of each routine. *)
Definition cast_calls : list tf_op := [ConvertToTensor; Cast; ConvertToTensor; Cast].
Definition sqr_sum_calls : list tf_op :=
  cast_calls ++ [Shape; Shape] ++ [Pow; ReduceSum; Reshape; Tile]
  ++ [Pow; ReduceSum; Reshape; Tile] ++ [Transpose; MatMul; Multiply; Subtract; TfAdd].
Definition euclidean_calls : list tf_op := sqr_sum_calls ++ [Greater; Sqrt; Where; Cast].
Definition cos_calls : list tf_op :=
  cast_calls ++ [Norm; Reshape] ++ [Norm; Reshape]
  ++ [Transpose; MatMul; TrueDiv; TrueDiv; Subtract; Cast].

(* ================================================================= *)
(** ** Reference quantities, in exact arithmetic *)

Module Exact.

Definition Rsum (l : list R) : R := fold_right Rplus 0%R l.

(** The dot product of two vectors. *)
Definition dot_product (u v : list R) : R := Rsum (zip_with Rmult u v).

(** The Euclidean norm of a vector. *)
Definition euclidean_norm (u : list R) : R := sqrt (Rsum (map (fun a => a * a)%R u)).

(** The squared norm of the difference of two vectors. *)
Definition squared_distance (u v : list R) : R :=
  Rsum (zip_with (fun a b => (a - b) * (a - b))%R u v).

(** The Euclidean distance between two vectors. *)
Definition euclidean_distance (u v : list R) : R := sqrt (squared_distance u v).

(** The cosine distance between two vectors. *)
Definition cosine_distance (u v : list R) : R :=
  (1 - dot_product u v / (euclidean_norm u * euclidean_norm v))%R.

End Exact.

(* ================================================================= *)
(** ** The errors of the specification *)

(** Calls that only convert or inspect their argument; every other call
    computes on the elements. *)
Definition inspects (op : tf_op) : bool :=
  match op with
  | ConvertToTensor | Cast | Shape => true
  | _ => false
  end.

(** [DimensionMismatch] in the error taxonomy of the specification is a
    validation of the module itself, "surfaced immediately" as the
    unsupported metric is.  The source has no such check; this states what a
    call that fails with it does, to compare the code with it: it raises
    having only converted and inspected its arguments. *)
Definition fails_with_dimension_mismatch {X} (m : M X) : Prop :=
  exists tr e, raises m tr e /\ forallb inspects tr = true.

(* ================================================================= *)
(** ** Sample inputs *)

Module Samples.

(** The inputs of the docstrings: [[1, 2], [3, 4]] and [[10, 11], [12, 13]]. *)
Definition doc_left : tensor spec_float :=
  of_rows [[F32.of_Z 1; F32.of_Z 2]; [F32.of_Z 3; F32.of_Z 4]].
Definition doc_right : tensor spec_float :=
  of_rows [[F32.of_Z 10; F32.of_Z 11]; [F32.of_Z 12; F32.of_Z 13]].

(** An array of shape (0, 2). *)
Definition no_rows : tensor spec_float := Tensor 0 2 [].

(** [[1, 2, 3]], one column more than the docstring inputs. *)
Definition wide : tensor spec_float :=
  of_rows [[F32.of_Z 1; F32.of_Z 2; F32.of_Z 3]].

(** A ragged sequence, [[1, 2], [3]]. *)
Definition ragged : tensor spec_float :=
  of_rows [[F32.of_Z 1; F32.of_Z 2]; [F32.of_Z 3]].

(** [[0, 0]], a row of zero norm. *)
Definition zero_row : tensor spec_float := of_rows [[F32.of_Z 0; F32.of_Z 0]].

(** [[3, 5]]; [[1, 1]] and [[3, 3]]; [[5795], [1]]. *)
Definition x35 : tensor spec_float := of_rows [[F32.of_Z 3; F32.of_Z 5]].
Definition x11 : tensor spec_float := of_rows [[F32.of_Z 1; F32.of_Z 1]].
Definition x33 : tensor spec_float := of_rows [[F32.of_Z 3; F32.of_Z 3]].
Definition x5795 : tensor spec_float := of_rows [[F32.of_Z 5795]; [F32.of_Z 1]].

(** The docstring inputs as real numbers. *)
Definition exact_left : tensor R := of_rows [[1; 2]; [3; 4]]%R.
Definition exact_right : tensor R := of_rows [[10; 11]; [12; 13]]%R.

End Samples.

(** The rows [[1, 0], [0, 1]], of norm 1, as real numbers. *)
Definition unit_rows : tensor R := of_rows [[1; 0]; [0; 1]]%R.

(* ================================================================= *)
(** ** [nnumpy.py]: lists and sets *)

(** [np_list_intersection] and [np_add_remove], which [ppandas.py] repeats
    word for word.  The elements are of any type whose [==] decides
    equality; a Python set is a duplicate-free list of which only the
    membership is observed. *)

From Stdlib Require ListSet.

Module Nnumpy.

Section Containers.

Context {X : Type} (X_eq_dec : forall x y : X, {x = y} + {x <> y}).

(** [x in l] *)
Definition contains (l : list X) (x : X) : bool :=
  if in_dec X_eq_dec x l then true else false.

Definition np_list_intersection (l1 l2 : list X) : list X :=
  filter (contains l2) l1.

(** The outcome of a call: a value, or the [KeyError] of [set.remove] with
    the element it did not find. *)
Inductive raised (V : Type) : Type :=
| Returned (v : V)
| KeyError (element : X).

(** The loop [for element in to_remove: result_temp.remove(element)]. *)
Fixpoint remove_each (result_temp : ListSet.set X) (to_remove : list X)
  : raised (ListSet.set X) :=
  match to_remove with
  | [] => Returned result_temp
  | element :: to_remove' =>
      if ListSet.set_mem X_eq_dec element result_temp
      then remove_each (ListSet.set_remove X_eq_dec element result_temp) to_remove'
      else KeyError _ element
  end.

Definition np_add_remove (set_ : ListSet.set X) (to_remove : list X) (to_add : X)
  : raised (ListSet.set X) :=
  match remove_each set_ to_remove with
  | Returned result_temp => Returned (ListSet.set_add X_eq_dec to_add result_temp)
  | KeyError _ element => KeyError _ element
  end.

End Containers.

Arguments Returned {X V} v.
Arguments KeyError {X V} element.

End Nnumpy.

(* ================================================================= *)
(** ** [ppandas.py]: columns of a data frame *)

(** A data frame is the list of its columns in order, each with its label,
    the name of its dtype and its values; the labels are taken distinct, as
    the functions below read a column by its label.  What pandas or numpy
    compute from the values and the random draws are parameters. *)

Module Ppandas.

Import Nnumpy.

Section Frames.

Context {V : Type} (V_eq_dec : forall x y : V, {x = y} + {x <> y}).

Record series : Type := Series { dtype : string; values : list V }.

Definition frame : Type := list (string * series).

Definition labels (df : frame) : list string := map fst df.

(** [df[key]]: the column, or the [KeyError] of a label that is not there. *)
Definition getitem (df : frame) (key : string) : option series :=
  option_map snd (find (fun c => String.eqb (fst c) key) df).

(** [df[key] = s]: the column is replaced, or added last. *)
Fixpoint setitem (df : frame) (key : string) (s : series) : frame :=
  match df with
  | [] => [(key, s)]
  | c :: df' => if String.eqb (fst c) key then (key, s) :: df' else c :: setitem df' key s
  end.



(** The rows a boolean mask selects. *)
Fixpoint select {Y} (mask : list bool) (l : list Y) : list Y :=
  match mask, l with
  | b :: mask', y :: l' => if b then y :: select mask' l' else select mask' l'
  | _, _ => []
  end.

(** [df[mask]] *)
Definition select_rows (mask : list bool) (df : frame) : frame :=
  map (fun c => (fst c, Series (dtype (snd c)) (select mask (values (snd c))))) df.

(** [pd_filter] on a dict, given as its items in order:
    [for key, val in filter_dict.items(): df = df[(df[key] == val)]].
    [veq] is the [==] of pandas on two values. *)
Fixpoint pd_filter_dict (veq : V -> V -> bool) (df : frame) (items : list (string * V))
  : raised (X := string) frame :=
  match items with
  | [] => Returned df
  | (key, val) :: items' =>
      match getitem df key with
      | None => KeyError key
      | Some s =>
          pd_filter_dict veq (select_rows (map (fun x => veq x val) (values s)) df) items'
      end
  end.

(** Every column has [n] values. *)
Definition rectangular (n : nat) (df : frame) : Prop :=
  Forall (fun c => length (values (snd c)) = n) df.

(** Row [i] of [df] has, in the column of every item, a value equal to the
    value of the item. *)
Definition row_matches (veq : V -> V -> bool) (df : frame) (items : list (string * V))
    (i : nat) : bool :=
  forallb (fun kv =>
             match getitem df (fst kv) with
             | Some s =>
                 match nth_error (values s) i with
                 | Some x => veq x (snd kv)
                 | None => true
                 end
             | None => true
             end) items.

(** A dict from labels to counts, in insertion order; [clist[ci] = v]. *)
Definition dict : Type := list (string * nat).

Fixpoint dict_set (d : dict) (k : string) (v : nat) : dict :=
  match d with
  | [] => [(k, v)]
  | kv :: d' => if String.eqb (fst kv) k then (k, v) :: d' else kv :: dict_set d' k v
  end.

(** [k in d] *)
Definition dict_has (d : dict) (k : string) : bool :=
  existsb (fun kv => String.eqb (fst kv) k) d.

(** [needle in hay], on strings. *)
Definition str_contains (needle hay : string) : bool :=
  match index 0 needle hay with Some _ => true | None => false end.

(** The number of distinct values read for a column: of the column itself
    when [nsample] is [-1], and otherwise of a random sample of the frame,
    given by [sampled]. *)
Definition nunique (sampled : Z -> string -> nat) (nsample : Z) (ci : string)
    (s : series) : nat :=
  if (nsample =? -1)%Z then length (nodup V_eq_dec (values s)) else sampled nsample ci.

(** The loop of [pd_dtype_getcontinuous] and of [pd_cols_unique_count], which
    differ by the count they give a continuous column, 1 or 0. *)
Fixpoint unique_counts (continuous : nat) (sampled : Z -> string -> nat)
    (cols_exclude : list string) (nsample : Z) (columns : frame) (clist : dict) : dict :=
  match columns with
  | [] => clist
  | (ci, s) :: columns' =>
      let n := nunique sampled nsample ci s in
      let v := if str_contains "float" (dtype s)
                  && negb (existsb (String.eqb ci) cols_exclude) && (5 <? n)
               then continuous else n in
      unique_counts continuous sampled cols_exclude nsample columns' (dict_set clist ci v)
  end.

Definition pd_dtype_getcontinuous (sampled : Z -> string -> nat) (df : frame)
    (cols_exclude : list string) (nsample : Z) : dict :=
  unique_counts 1 sampled cols_exclude nsample df [].

Definition pd_cols_unique_count (sampled : Z -> string -> nat) (df : frame)
    (cols_exclude : list string) (nsample : Z) : dict :=
  unique_counts 0 sampled cols_exclude nsample df [].

(** [pd_add_noise].  [noisy level ci s] is the column [s] plus the normal
    draws scaled by [level] and by the spread of its quantiles, or the
    exception that computing it raises; the lines printed come first in the
    result. *)
Fixpoint add_noise_loop {L E} (noisy : L -> string -> series -> E + series)
    (level : L) (colsnum : dict) (columns : frame) (printed : list string)
    (df2 : frame) : list string * (E + frame) :=
  match columns with
  | [] => (printed, inr df2)
  | (ci, s) :: columns' =>
      if dict_has colsnum ci then
        let printed := printed ++ [("adding noise " ++ ci)%string] in
        match noisy level ci s with
        | inl e => (printed, inl e)
        | inr s' => add_noise_loop noisy level colsnum columns' printed (setitem df2 ci s')
        end
      else add_noise_loop noisy level colsnum columns' printed (setitem df2 ci s)
  end.

Definition pd_add_noise {L E} (sampled : Z -> string -> nat)
    (noisy : L -> string -> series -> E + series)
    (df : frame) (level : L) (cols_exclude : list string) : list string * (E + frame) :=
  let colsnum := pd_dtype_getcontinuous sampled df cols_exclude (-1) in
  add_noise_loop noisy level colsnum df [] [].

End Frames.

End Ppandas.

(* ================================================================= *)
(** ** Further sample inputs *)

Module MoreSamples.

(** [[nan, 1]], and an array of shape (2, 0). *)
Definition nan_row : tensor spec_float := of_rows [[S754_nan; F32.of_Z 1]].
Definition no_columns : tensor spec_float := Tensor 2 0 [[]; []].

(** The set and the lists of [test1] in [nnumpy.py]. *)
Definition test1_l1 : list Z := [1; 2; 3]%Z.
Definition test1_l2 : list Z := [3; 4; 1]%Z.
Definition test1_set : ListSet.set Z := [1; 2; 3; 4; 5]%Z.

(** A frame with the columns of the docstring of [pd_filter]. *)
Definition shops : Ppandas.frame (V := Z) :=
  [("shop_id"%string, Ppandas.Series "int64" [11; 12; 11]%Z);
   ("l1_genre_id"%string, Ppandas.Series "int64" [600; 700; 800]%Z)].

End MoreSamples.

(* ================================================================= *)
(** * Proofs *)

(** ** The computation monad *)

Lemma returns_bind {A B} (m : M A) (k : A -> M B) tr a tr' b :
  returns m tr a -> returns (k a) tr' b -> returns (bind m k) (tr ++ tr') b.
Proof.
  unfold returns, bind. intros -> ->. reflexivity.
Qed.

Lemma raises_bind_now {A B} (m : M A) (k : A -> M B) tr e :
  raises m tr e -> raises (bind m k) tr e.
Proof.
  unfold raises, bind. intros ->. reflexivity.
Qed.

Lemma raises_bind_later {A B} (m : M A) (k : A -> M B) tr a tr' e :
  returns m tr a -> raises (k a) tr' e -> raises (bind m k) (tr ++ tr') e.
Proof.
  unfold returns, raises, bind. intros -> ->. reflexivity.
Qed.

Lemma returns_ret {A} (a : A) : returns (ret a) [] a.
Proof. reflexivity. Qed.

Lemma returns_call {A} op (a : A) : returns (call op (Return a)) [op] a.
Proof. reflexivity. Qed.

(** ** Lists: slices, columns, broadcasting *)

Lemma chunks_column {A} (v : list A) :
  chunks (length v) 1 v = map (fun x => [x]) v.
Proof.
  induction v as [|x v IH]; simpl; [reflexivity|]. now rewrite IH.
Qed.

Lemma chunks_row {A} (v : list A) : chunks 1 (length v) v = [v].
Proof.
  simpl. now rewrite firstn_all.
Qed.

Lemma concat_repeat_singleton {A} (x : A) n : concat (repeat [x] n) = repeat x n.
Proof.
  induction n; simpl; congruence.
Qed.

Lemma concat_repeat_once {A} (l : list A) : concat (repeat l 1) = l.
Proof.
  simpl. apply app_nil_r.
Qed.

Lemma zip_with_length {A B C} (f : A -> B -> C) l l' :
  length l = length l' -> length (zip_with f l l') = length l.
Proof.
  revert l'. induction l as [|a l IH]; intros [|b l'] H; simpl in *; try congruence.
  f_equal. apply IH. congruence.
Qed.

Lemma zip_with_map_map {A B C D} (f : B -> C -> D) (g : A -> B) (h : A -> C) l :
  zip_with f (map g l) (map h l) = map (fun x => f (g x) (h x)) l.
Proof.
  induction l; simpl; congruence.
Qed.

Lemma zip_with_repeat_l {A B C D} (f : B -> C -> D) (x : B) (h : A -> C) l n :
  length l = n -> zip_with f (repeat x n) (map h l) = map (fun y => f x (h y)) l.
Proof.
  intros <-. induction l; simpl; congruence.
Qed.

Lemma zip_with_repeat_r {A B C D} (f : B -> C -> D) (g : A -> B) (y : C) l n :
  length l = n -> zip_with f (map g l) (repeat y n) = map (fun x => f (g x) y) l.
Proof.
  intros <-. induction l; simpl; congruence.
Qed.

Lemma columns_length {A} c (rs : list (list A)) :
  Forall (fun r => length r = c) rs -> length (columns c rs) = c.
Proof.
  induction 1 as [|r rs Hr _ IH]; simpl.
  - apply repeat_length.
  - rewrite zip_with_length; congruence.
Qed.

Lemma columns_zip_cons {A} n (r : list A) (cs : list (list A)) :
  length r = length cs ->
  columns (S n) (zip_with cons r cs) = r :: columns n cs.
Proof.
  revert cs. induction r as [|a r IH]; intros [|col cs] H; simpl in H; try congruence.
  - reflexivity.
  - change (columns (S n) (zip_with cons (a :: r) (col :: cs)))
      with (zip_with cons (a :: col) (columns (S n) (zip_with cons r cs))).
    rewrite IH by congruence. reflexivity.
Qed.

(** Transposing twice gives the rows back. *)
Lemma columns_columns {A} c (rs : list (list A)) :
  Forall (fun r => length r = c) rs ->
  columns (length rs) (columns c rs) = rs.
Proof.
  induction 1 as [|r rs Hr Hrs IH]; simpl.
  - destruct c; reflexivity.
  - rewrite columns_zip_cons.
    + now rewrite IH.
    + now rewrite columns_length.
Qed.

Lemma stretch_same {A} n (l : list A) : stretch n n l = l.
Proof.
  unfold stretch. now rewrite Nat.eqb_refl.
Qed.

Lemma stretch_single {A} k (x : A) : stretch 1 k [x] = repeat x k.
Proof.
  unfold stretch. destruct (Nat.eqb_spec 1 k) as [<-|_]; simpl; [reflexivity|].
  apply app_nil_r.
Qed.

Lemma map_stretch_same {A} n (ls : list (list A)) : map (stretch n n) ls = ls.
Proof.
  induction ls; simpl; [reflexivity|]. now rewrite stretch_same, IHls.
Qed.

Lemma bdim_same n : bdim n n = Some n.
Proof.
  unfold bdim. now rewrite Nat.eqb_refl.
Qed.

Lemma bdim_one_r n : bdim n 1 = Some n.
Proof.
  unfold bdim. destruct (Nat.eqb_spec n 1) as [->|_]; [reflexivity|].
  reflexivity.
Qed.

Lemma wfb_wf {E} (t : tensor E) : wfb t = true <-> wf t.
Proof.
  unfold wfb, wf. rewrite andb_true_iff, Nat.eqb_eq, forallb_forall, Forall_forall.
  split; intros [H1 H2]; split; trivial; intros r Hr; apply Nat.eqb_eq; auto.
Qed.

Lemma entry_pairwise {T} (f : list T -> list T -> T) left right i j u v :
  nth_error (rows left) i = Some u ->
  nth_error (rows right) j = Some v ->
  entry (pairwise f left right) i j = Some (f u v).
Proof.
  intros Hu Hv. unfold entry, pairwise; simpl.
  rewrite nth_error_map, Hu; simpl.
  now rewrite nth_error_map, Hv.
Qed.

Lemma wf_pairwise {T} (f : list T -> list T -> T) left right :
  wf left -> wf right -> wf (pairwise f left right).
Proof.
  intros [Hl _] [Hr _]. split; simpl.
  - now rewrite length_map.
  - apply Forall_map, Forall_forall. intros u _. now rewrite length_map.
Qed.

(** ** The helpers of the module on well-formed tensors *)

Section Runs.

Context {T : Type} {A : Arithmetic T}.

Lemma resolve_shape_column n : resolve_shape n (-1, 1)%Z = Some (n, 1).
Proof.
  unfold resolve_shape. change (Z.to_nat 1) with 1.
  rewrite Nat.mod_1_r, Nat.div_1_r. reflexivity.
Qed.

Lemma resolve_shape_row n : resolve_shape n (1, -1)%Z = Some (1, n).
Proof.
  unfold resolve_shape. change (Z.to_nat 1) with 1.
  rewrite Nat.mod_1_r, Nat.div_1_r. reflexivity.
Qed.

Lemma tf_reshape_column (v : list T) :
  returns (tf_reshape v (-1, 1)%Z) [Reshape]
    (Tensor (length v) 1 (map (fun x => [x]) v)).
Proof.
  unfold tf_reshape. rewrite resolve_shape_column, chunks_column. reflexivity.
Qed.

Lemma tf_reshape_row (v : list T) :
  returns (tf_reshape v (1, -1)%Z) [Reshape] (Tensor 1 (length v) [v]).
Proof.
  unfold tf_reshape. rewrite resolve_shape_row, chunks_row. reflexivity.
Qed.

Lemma cast_returns (left right : tensor T) :
  wf left -> wf right ->
  returns (__cast_left_and_right_to_tensors left right) cast_calls (left, right).
Proof.
  intros Hl Hr. apply wfb_wf in Hl, Hr.
  unfold __cast_left_and_right_to_tensors, tf_convert_to_tensor.
  rewrite Hl, Hr. reflexivity.
Qed.

Lemma rows_counts_returns (left right : tensor T) :
  returns (__get_rows_counts left right) [Shape; Shape] (nrows left, nrows right).
Proof. reflexivity. Qed.

(** The squared norms of [left], one per row, repeated along the columns. *)
Lemma tensor_sqr_column (t : tensor T) n :
  length (rows t) = nrows t ->
  returns (__get_tensor_sqr t (-1, 1)%Z (1, n)) [Pow; ReduceSum; Reshape; Tile]
    (Tensor (nrows t) n (map (fun u => repeat (sqr_norm u) n) (rows t))).
Proof.
  intros Ht. unfold __get_tensor_sqr.
  eapply returns_bind with (tr := [Pow]); [apply returns_call|].
  eapply returns_bind with (tr := [ReduceSum]); [apply returns_call|].
  eapply returns_bind with (tr := [Reshape]); [apply tf_reshape_column|].
  unfold tf_tile, returns, call. cbn [nrows ncols rows].
  rewrite concat_repeat_once, !length_map, Ht, Nat.mul_1_r, Nat.mul_1_l, !map_map.
  do 3 f_equal. apply map_ext. intros u. apply concat_repeat_singleton.
Qed.

(** The squared norms of [right], one per column, repeated along the rows. *)
Lemma tensor_sqr_row (t : tensor T) n :
  length (rows t) = nrows t ->
  returns (__get_tensor_sqr t (1, -1)%Z (n, 1)) [Pow; ReduceSum; Reshape; Tile]
    (Tensor n (nrows t) (repeat (map sqr_norm (rows t)) n)).
Proof.
  intros Ht. unfold __get_tensor_sqr.
  eapply returns_bind with (tr := [Pow]); [apply returns_call|].
  eapply returns_bind with (tr := [ReduceSum]); [apply returns_call|].
  eapply returns_bind with (tr := [Reshape]); [apply tf_reshape_row|].
  unfold tf_tile, returns, call. cbn [nrows ncols rows map].
  rewrite concat_repeat_once, concat_repeat_singleton.
  rewrite !length_map, Ht, Nat.mul_1_r, Nat.mul_1_l, map_map.
  reflexivity.
Qed.

Lemma reshaped_norm_column (t : tensor T) :
  length (rows t) = nrows t ->
  returns (__get_tensor_reshaped_norm t (-1, 1)%Z) [Norm; Reshape]
    (Tensor (nrows t) 1 (map (fun u => [norm u]) (rows t))).
Proof.
  intros Ht. unfold __get_tensor_reshaped_norm.
  eapply returns_bind with (tr := [Norm]); [apply returns_call|].
  rewrite <- Ht, <- (length_map norm), <- (map_map norm (fun x => [x])).
  apply tf_reshape_column.
Qed.

Lemma reshaped_norm_row (t : tensor T) :
  length (rows t) = nrows t ->
  returns (__get_tensor_reshaped_norm t (1, -1)%Z) [Norm; Reshape]
    (Tensor 1 (nrows t) [map norm (rows t)]).
Proof.
  intros Ht. unfold __get_tensor_reshaped_norm.
  eapply returns_bind with (tr := [Norm]); [apply returns_call|].
  rewrite <- Ht, <- (length_map norm).
  apply tf_reshape_row.
Qed.

(** The cross term [left . right^T]: the dot products of the rows. *)
Lemma cross_term_returns (left right : tensor T) :
  wf right -> ncols left = ncols right ->
  returns (tf_matmul left (Tensor (ncols right) (nrows right)
                             (columns (ncols right) (rows right))))
    [MatMul] (pairwise dot left right).
Proof.
  intros [Hr Hc] HD.
  unfold tf_matmul, pairwise. cbn [nrows ncols rows].
  rewrite HD, Nat.eqb_refl, <- Hr, columns_columns by assumption.
  reflexivity.
Qed.

(** With different numbers of columns the product is refused. *)
Lemma cross_term_raises (left right : tensor T) :
  ncols left <> ncols right ->
  raises (tf_matmul left (Tensor (ncols right) (nrows right)
                            (columns (ncols right) (rows right))))
    [MatMul] (InvalidArgumentError "Matrix size-incompatible").
Proof.
  intros HD.
  unfold tf_matmul, raises. cbn [nrows ncols rows].
  apply Nat.eqb_neq in HD. rewrite HD. reflexivity.
Qed.

Lemma elementwise_same_shape {E F} op (f : E -> T -> F) (x : tensor E) (y : tensor T) :
  nrows x = nrows y -> ncols x = ncols y ->
  returns (elementwise op f x y) [op]
    (Tensor (nrows x) (ncols x) (zip_with (zip_with f) (rows x) (rows y))).
Proof.
  intros Hr Hc. unfold elementwise, bcast.
  rewrite <- Hr, <- Hc, !bdim_same, !stretch_same, !map_stretch_same.
  reflexivity.
Qed.

(** Broadcasting a column of [n] values, and a row of [c] values, against an
    [n] by [c] tensor. *)
Lemma elementwise_column {E F X} op (f : E -> T -> F) (x : tensor E)
    (g : X -> T) (l : list X) n c :
  nrows x = n -> ncols x = c ->
  returns (elementwise op f x (Tensor n 1 (map (fun u => [g u]) l))) [op]
    (Tensor n c (zip_with (zip_with f) (rows x) (map (fun u => repeat (g u) c) l))).
Proof.
  intros Hn Hc. unfold elementwise, bcast. cbn [nrows ncols rows].
  rewrite Hn, Hc, bdim_same, bdim_one_r, !stretch_same, map_stretch_same, map_map.
  unfold returns, call. do 4 f_equal.
  apply map_ext. intros u. apply stretch_single.
Qed.

Lemma elementwise_row {E F} op (f : E -> T -> F) (x : tensor E) (w : list T) n c :
  nrows x = n -> ncols x = c ->
  returns (elementwise op f x (Tensor 1 c [w])) [op]
    (Tensor n c (zip_with (zip_with f) (rows x) (repeat w n))).
Proof.
  intros Hn Hc. unfold elementwise, bcast. cbn [nrows ncols rows].
  rewrite Hn, Hc, bdim_same, bdim_one_r, stretch_same, map_stretch_same.
  rewrite stretch_single, map_stretch_same. reflexivity.
Qed.

Lemma returns_eq {X} (m : M X) tr a b : returns m tr a -> a = b -> returns m tr b.
Proof. now intros H <-. Qed.

(** [sqr_sum] is, entry by entry, the combination of the two squared norms
    and of the cross term. *)
Lemma euclidean_sqr_sum_returns (left right : tensor T) :
  wf left -> wf right -> ncols left = ncols right ->
  returns (euclidean_sqr_sum left right) sqr_sum_calls
    (pairwise sqr_sum_entry left right).
Proof.
  intros Hl Hr HD. unfold euclidean_sqr_sum, sqr_sum_calls.
  destruct (Hl) as [Hl1 _]. destruct (Hr) as [Hr1 _].
  eapply returns_bind; [now apply cast_returns|]. cbv beta iota.
  eapply returns_bind; [apply rows_counts_returns|]. cbv beta iota.
  eapply returns_bind; [now apply tensor_sqr_column|].
  eapply returns_bind; [now apply tensor_sqr_row|].
  eapply returns_bind with (tr := [Transpose]); [apply returns_call|].
  eapply returns_bind with (tr := [MatMul]); [now apply cross_term_returns|].
  eapply returns_bind with (tr := [Multiply]); [apply returns_call|].
  eapply returns_bind with (tr := [Subtract]);
    [apply elementwise_same_shape; reflexivity|].
  eapply returns_eq; [apply elementwise_same_shape; reflexivity|].
  unfold pairwise. cbn [nrows ncols rows]. f_equal.
  rewrite map_map, zip_with_map_map.
  rewrite zip_with_repeat_r by assumption.
  apply map_ext. intros u.
  rewrite map_map, zip_with_repeat_l by assumption.
  rewrite zip_with_map_map. reflexivity.
Qed.

Lemma tf_cdist_euclidean_returns (left right : tensor T) :
  wf left -> wf right -> ncols left = ncols right ->
  returns (tf_cdist_euclidean left right) euclidean_calls
    (pairwise euclidean_entry left right).
Proof.
  intros Hl Hr HD. unfold tf_cdist_euclidean, euclidean_calls.
  eapply returns_bind; [now apply euclidean_sqr_sum_returns|].
  eapply returns_bind with (tr := [Greater]); [apply returns_call|].
  eapply returns_bind with (tr := [Sqrt]); [apply returns_call|].
  eapply returns_bind with (tr := [Where]);
    [apply elementwise_same_shape; reflexivity|].
  eapply returns_eq; [apply returns_call|].
  unfold pairwise. cbn [nrows ncols rows]. f_equal.
  rewrite zip_with_map_map, map_map. apply map_ext. intros u.
  rewrite !map_map, zip_with_map_map. reflexivity.
Qed.

Lemma tf_cdist_cos_returns (left right : tensor T) :
  wf left -> wf right -> ncols left = ncols right ->
  returns (tf_cdist_cos left right) cos_calls (pairwise cos_entry left right).
Proof.
  intros Hl Hr HD. unfold tf_cdist_cos, cos_calls.
  destruct (Hl) as [Hl1 _]. destruct (Hr) as [Hr1 _].
  eapply returns_bind; [now apply cast_returns|]. cbv beta iota.
  eapply returns_bind; [now apply reshaped_norm_column|].
  eapply returns_bind; [now apply reshaped_norm_row|].
  eapply returns_bind with (tr := [Transpose]); [apply returns_call|].
  eapply returns_bind with (tr := [MatMul]); [now apply cross_term_returns|].
  eapply returns_bind with (tr := [TrueDiv]);
    [apply elementwise_column; reflexivity|].
  eapply returns_bind with (tr := [TrueDiv]);
    [apply elementwise_row; reflexivity|].
  eapply returns_bind with (tr := [Subtract]); [apply returns_call|].
  eapply returns_eq; [apply returns_call|].
  unfold pairwise. cbn [nrows ncols rows]. f_equal.
  rewrite zip_with_map_map, zip_with_repeat_r by assumption.
  rewrite map_map. apply map_ext. intros u.
  rewrite zip_with_repeat_r by assumption.
  rewrite zip_with_map_map, map_map. reflexivity.
Qed.

End Runs.

(* ================================================================= *)
(** ** Exact arithmetic *)

Module ExactFacts.
Import Exact.
Local Open Scope R_scope.

Lemma fold_left_Rplus (l : list R) (a : R) : fold_left Rplus l a = a + Rsum l.
Proof.
  revert a. induction l as [|x l IH]; intros a; simpl.
  - lra.
  - rewrite IH. unfold Rsum. lra.
Qed.

Lemma reduce_sum_exact (l : list R) : reduce_sum l = Rsum l.
Proof.
  unfold reduce_sum. simpl. rewrite fold_left_Rplus. lra.
Qed.

Lemma dot_exact (u v : list R) : dot u v = dot_product u v.
Proof. apply reduce_sum_exact. Qed.

Lemma sqr_norm_exact (u : list R) : sqr_norm u = Rsum (map (fun a => a * a) u).
Proof. apply reduce_sum_exact. Qed.

Lemma norm_exact (u : list R) : norm u = euclidean_norm u.
Proof.
  unfold norm, euclidean_norm. now rewrite reduce_sum_exact.
Qed.

Lemma sum_squares_nonneg (u : list R) : 0 <= Rsum (map (fun a => a * a) u).
Proof.
  induction u as [|a u IH]; simpl; [lra|].
  pose proof (Rle_0_sqr a) as Hsq. unfold Rsum, Rsqr in *. lra.
Qed.

Lemma squared_distance_nonneg (u v : list R) : 0 <= squared_distance u v.
Proof.
  unfold squared_distance. revert v.
  induction u as [|a u IH]; intros [|b v]; simpl; try lra.
  specialize (IH v). pose proof (Rle_0_sqr (a - b)) as Hsq.
  unfold Rsum, Rsqr in *. lra.
Qed.

(** The algebraic identity behind [sqr_sum]. *)
Lemma sqr_sum_identity (u v : list R) :
  length u = length v ->
  Rsum (map (fun a => a * a) u) - 2 * dot_product u v + Rsum (map (fun a => a * a) v)
  = squared_distance u v.
Proof.
  unfold dot_product, squared_distance. revert v.
  induction u as [|a u IH]; intros [|b v] H; simpl in *; try discriminate.
  - lra.
  - specialize (IH v ltac:(congruence)). lra.
Qed.

Lemma sqr_sum_entry_exact (u v : list R) :
  length u = length v -> sqr_sum_entry u v = squared_distance u v.
Proof.
  intros H. unfold sqr_sum_entry. rewrite !sqr_norm_exact, dot_exact.
  simpl. now apply sqr_sum_identity.
Qed.

Lemma clamp_exact (s : R) : 0 <= s -> clamp s = sqrt s.
Proof.
  intros Hs. unfold clamp. simpl. destruct (Rlt_dec 0 s) as [_|Hn]; [reflexivity|].
  replace s with 0 by lra. now rewrite sqrt_0.
Qed.

Lemma euclidean_entry_exact (u v : list R) :
  length u = length v -> euclidean_entry u v = euclidean_distance u v.
Proof.
  intros H. unfold euclidean_entry, euclidean_distance.
  rewrite sqr_sum_entry_exact by assumption.
  apply clamp_exact, squared_distance_nonneg.
Qed.

Lemma squared_distance_self (u : list R) : squared_distance u u = 0.
Proof.
  unfold squared_distance. induction u as [|a u IH]; simpl; [reflexivity|].
  rewrite IH. lra.
Qed.

Lemma squared_distance_sym (u v : list R) : squared_distance u v = squared_distance v u.
Proof.
  unfold squared_distance. revert v.
  induction u as [|a u IH]; intros [|b v]; simpl; try reflexivity.
  rewrite (IH v). lra.
Qed.

(** Cauchy-Schwarz. *)
Lemma cauchy_schwarz (u v : list R) :
  dot_product u v * dot_product u v
  <= Rsum (map (fun a => a * a) u) * Rsum (map (fun a => a * a) v).
Proof.
  unfold dot_product. revert v.
  induction u as [|a u IH]; intros v.
  - simpl. pose proof (sum_squares_nonneg v). lra.
  - destruct v as [|b v].
    + simpl. pose proof (sum_squares_nonneg (a :: u)). simpl in *. lra.
    + specialize (IH v). simpl.
      pose proof (sum_squares_nonneg u) as HU.
      pose proof (sum_squares_nonneg v) as HV.
      set (S := Rsum (zip_with Rmult u v)) in *.
      set (U := Rsum (map (fun a => a * a) u)) in *.
      set (V := Rsum (map (fun a => a * a) v)) in *.
      destruct (Req_dec V 0) as [HV0|HV0].
      * assert (S = 0) by nra. subst S. rewrite H, HV0. nra.
      * assert (0 < V) by lra.
        assert (2 * a * b * S * V <= (a * a * V + b * b * U) * V)
          by (pose proof (Rle_0_sqr (a * V - b * S)); unfold Rsqr in *; nra).
        assert (2 * a * b * S <= a * a * V + b * b * U) by nra.
        nra.
Qed.

Lemma cos_entry_exact (u v : list R) :
  cos_entry u v = 1 - dot_product u v / euclidean_norm u / euclidean_norm v.
Proof.
  unfold cos_entry. now rewrite dot_exact, !norm_exact.
Qed.

Lemma cos_entry_cosine_distance (u v : list R) :
  cos_entry u v = cosine_distance u v.
Proof.
  rewrite cos_entry_exact. unfold cosine_distance, Rdiv.
  rewrite Rinv_mult. ring.
Qed.

Lemma euclidean_norm_pos (u : list R) : euclidean_norm u <> 0 -> 0 < euclidean_norm u.
Proof.
  intros H. pose proof (sqrt_pos (Rsum (map (fun a => a * a) u))) as Hp.
  unfold euclidean_norm in *. lra.
Qed.

Lemma dot_product_bound (u v : list R) :
  - (euclidean_norm u * euclidean_norm v) <= dot_product u v
  <= euclidean_norm u * euclidean_norm v.
Proof.
  pose proof (cauchy_schwarz u v) as CS.
  pose proof (sqrt_pos (Rsum (map (fun a => a * a) u))) as Hp.
  pose proof (sqrt_pos (Rsum (map (fun a => a * a) v))) as Hq.
  pose proof (sqrt_sqrt _ (sum_squares_nonneg u)) as Hpp.
  pose proof (sqrt_sqrt _ (sum_squares_nonneg v)) as Hqq.
  unfold euclidean_norm.
  set (p := sqrt (Rsum (map (fun a => a * a) u))) in *.
  set (q := sqrt (Rsum (map (fun a => a * a) v))) in *.
  set (d := dot_product u v) in *.
  rewrite <- Hpp, <- Hqq in CS.
  assert (0 <= p * q) by nra.
  assert (d * d <= (p * q) * (p * q)) by nra.
  split; nra.
Qed.

(** With rows of nonzero norm, the cosine distance lies between 0 and 2. *)
Lemma cosine_distance_bounds (u v : list R) :
  euclidean_norm u <> 0 -> euclidean_norm v <> 0 ->
  0 <= cosine_distance u v <= 2.
Proof.
  intros Hu Hv. apply euclidean_norm_pos in Hu, Hv.
  pose proof (dot_product_bound u v) as [Hlo Hhi].
  unfold cosine_distance, Rdiv.
  set (p := euclidean_norm u * euclidean_norm v) in *.
  assert (Hp : 0 < p) by (unfold p; nra).
  pose proof (Rinv_0_lt_compat p Hp) as Hr.
  pose proof (Rinv_r p ltac:(lra)) as Hone.
  set (r := / p) in *. set (d := dot_product u v) in *.
  split; nra.
Qed.

End ExactFacts.

(** ** Rows and entries of well-formed tensors *)

Lemma row_length {E} (t : tensor E) i u :
  wf t -> nth_error (rows t) i = Some u -> length u = ncols t.
Proof.
  intros [_ H] Hu. apply nth_error_In in Hu.
  rewrite Forall_forall in H. now apply H.
Qed.

Lemma nth_error_in_range {X} (l : list X) i : i < length l -> exists x, nth_error l i = Some x.
Proof.
  intros H. destruct (nth_error l i) eqn:E; [eauto|].
  apply nth_error_None in E. lia.
Qed.

Lemma rows_agree {E} (left right : tensor E) i j u v :
  wf left -> wf right -> ncols left = ncols right ->
  nth_error (rows left) i = Some u -> nth_error (rows right) j = Some v ->
  length u = length v.
Proof.
  intros Hl Hr HD Hu Hv.
  rewrite (row_length _ Hl Hu), (row_length _ Hr Hv). exact HD.
Qed.

(* ================================================================= *)
(** ** Single precision *)

Module F32Facts.
Import F32.
Local Open Scope Z_scope.

Lemma shr_1_nonneg mrs : 0 <= shr_m mrs -> 0 <= shr_m (shr_1 mrs).
Proof.
  destruct mrs as [m r s]. simpl.
  destruct m as [|p|p]; [intros _; simpl; lia | | lia].
  intros _. destruct p; simpl; lia.
Qed.

Lemma iter_shr_1_nonneg p mrs :
  0 <= shr_m mrs -> 0 <= shr_m (iter_pos shr_1 p mrs).
Proof.
  revert mrs. induction p as [p IH|p IH|]; intros mrs H; simpl.
  - apply IH, IH, shr_1_nonneg, H.
  - apply IH, IH, H.
  - apply shr_1_nonneg, H.
Qed.

Lemma shr_nonneg mrs e n : 0 <= shr_m mrs -> 0 <= shr_m (fst (shr mrs e n)).
Proof.
  intros H. destruct n; simpl; trivial. now apply iter_shr_1_nonneg.
Qed.

Lemma shr_record_of_loc_m m l : shr_m (shr_record_of_loc m l) = m.
Proof.
  destruct l as [|[]]; reflexivity.
Qed.

Lemma shr_fexp_nonneg m e l :
  0 <= m -> 0 <= shr_m (fst (shr_fexp prec emax m e l)).
Proof.
  intros H. unfold shr_fexp. apply shr_nonneg. now rewrite shr_record_of_loc_m.
Qed.

Lemma round_nearest_even_nonneg m l : 0 <= m -> 0 <= round_nearest_even m l.
Proof.
  intros H. destruct l as [|[]]; simpl; try lia.
  destruct (Z.even m); lia.
Qed.

(** Rounding a non-negative mantissa with a positive sign gives [+0.0], a
    positive number or [+inf]. *)
Lemma binary_round_aux_nonneg mx ex lx :
  0 <= mx -> nonneg (binary_round_aux prec emax false mx ex lx) = true.
Proof.
  intros H. unfold binary_round_aux.
  pose proof (shr_fexp_nonneg ex lx H) as H1.
  destruct (shr_fexp prec emax mx ex lx) as [mrs' e']. simpl in H1.
  pose proof (shr_fexp_nonneg e' loc_Exact
                (round_nearest_even_nonneg (loc_of_shr_record mrs') H1)) as H2.
  destruct (shr_fexp prec emax _ e' loc_Exact) as [mrs'' e'']. simpl in H2.
  destruct (shr_m mrs'') as [|m|m]; [reflexivity| |lia].
  destruct (e'' <=? emax - prec); reflexivity.
Qed.

Lemma sqrt_core_nonneg m e :
  0 <= fst (fst (SFsqrt_core_binary prec emax (Zpos m) e)).
Proof.
  unfold SFsqrt_core_binary.
  set (e' := Z.min _ _). set (m' := match e - 2 * e' with Z0 => _ | _ => _ end).
  pose proof (Z.sqrtrem_sqrt m') as Hs.
  destruct (Z.sqrtrem m') as [q r]. simpl in *. subst q. apply Z.sqrt_nonneg.
Qed.

(** The square root of a positive number is not negative (and is a number). *)
Lemma sqrt_nonneg x :
  SFltb (S754_zero false) x = true -> nonneg (SFsqrt prec emax x) = true.
Proof.
  destruct x as [s|[|]| |[|] m e]; try discriminate; try reflexivity.
  intros _. unfold SFsqrt.
  pose proof (sqrt_core_nonneg m e) as H.
  destruct (SFsqrt_core_binary prec emax (Z.pos m) e) as [[mz ez] lz]. simpl in H.
  now apply binary_round_aux_nonneg.
Qed.

(** The clamp of [tf_cdist_euclidean] never lets a negative number or a NaN
    through. *)
Lemma clamp_nonneg (s : spec_float) : nonneg (clamp s) = true.
Proof.
  unfold clamp. cbn [num_gt num_zero num_sqrt binary32].
  destruct (SFltb (S754_zero false) s) eqn:Hs; [now apply sqrt_nonneg | reflexivity].
Qed.

(** Division by a zero norm: the quotient is an infinity or a NaN, and stays
    so through the second division and the subtraction from [1.0]. *)
Lemma cos_entry_zero_norm_left (d nl nr : spec_float) :
  is_zero nl = true ->
  is_finite (num_sub num_one (num_div (num_div d nl) nr)) = false.
Proof.
  destruct nl as [s| | |]; try discriminate. intros _.
  destruct d as [sd|sd| |sd md ed]; destruct nr as [sr|sr| |sr mr er]; reflexivity.
Qed.

Lemma cos_entry_zero_norm_right (q nr : spec_float) :
  is_zero nr = true ->
  is_finite (num_sub num_one (num_div q nr)) = false.
Proof.
  destruct nr as [s| | |]; try discriminate. intros _.
  destruct q as [sq|sq| |sq mq eq]; reflexivity.
Qed.

End F32Facts.

(* ================================================================= *)
(** * The specified properties *)

Section Dispatch.

Context {T : Type} {A : Arithmetic T}.

Lemma tf_cdist_euclidean_mismatch (left right : tensor T) :
  wf left -> wf right -> ncols left <> ncols right ->
  raises (tf_cdist_euclidean left right)
    (cast_calls ++ [Shape; Shape] ++ [Pow; ReduceSum; Reshape; Tile]
     ++ [Pow; ReduceSum; Reshape; Tile] ++ [Transpose; MatMul])
    (InvalidArgumentError "Matrix size-incompatible").
Proof.
  intros Hl Hr HD. unfold tf_cdist_euclidean, euclidean_sqr_sum.
  destruct (Hl) as [Hl1 _]. destruct (Hr) as [Hr1 _].
  apply raises_bind_now.
  eapply raises_bind_later; [now apply cast_returns|]. cbv beta iota.
  eapply raises_bind_later; [apply rows_counts_returns|]. cbv beta iota.
  eapply raises_bind_later; [now apply tensor_sqr_column|].
  eapply raises_bind_later; [now apply tensor_sqr_row|].
  eapply raises_bind_later with (tr := [Transpose]); [apply returns_call|].
  apply raises_bind_now. now apply cross_term_raises.
Qed.

Lemma tf_cdist_cos_mismatch (left right : tensor T) :
  wf left -> wf right -> ncols left <> ncols right ->
  raises (tf_cdist_cos left right)
    (cast_calls ++ [Norm; Reshape] ++ [Norm; Reshape] ++ [Transpose; MatMul])
    (InvalidArgumentError "Matrix size-incompatible").
Proof.
  intros Hl Hr HD. unfold tf_cdist_cos.
  destruct (Hl) as [Hl1 _]. destruct (Hr) as [Hr1 _].
  eapply raises_bind_later; [now apply cast_returns|]. cbv beta iota.
  eapply raises_bind_later; [now apply reshaped_norm_column|].
  eapply raises_bind_later; [now apply reshaped_norm_row|].
  eapply raises_bind_later with (tr := [Transpose]); [apply returns_call|].
  apply raises_bind_now. now apply cross_term_raises.
Qed.

(** C9.  Dispatch: with the metric "euclidean", [tf_cdist] is
    [tf_cdist_euclidean] on the same arguments, and with "cosine" it is
    [tf_cdist_cos]: same calls, same matrix or same exception. *)
Theorem dispatch_agrees (left right : tensor T) :
  tf_cdist left right "euclidean" = tf_cdist_euclidean left right /\
  tf_cdist left right "cosine" = tf_cdist_cos left right.
Proof.
  split; reflexivity.
Qed.

(** C4.  A metric other than "euclidean" and "cosine" makes [tf_cdist] raise
    the [ValueError] whose message embeds the metric, whatever [left] and
    [right] are (ragged or of different widths included), and no TensorFlow
    call has been made when it does. *)
Theorem unsupported_metric_raises (left right : tensor T) (metric : string) :
  metric <> "euclidean"%string -> metric <> "cosine"%string ->
  tf_cdist left right metric
  = ([], Raise (ValueError
        ("Metric type not understood: value " ++ metric ++ " is not valid!"))).
Proof.
  intros He Hc. unfold tf_cdist.
  apply String.eqb_neq in He, Hc. rewrite He, Hc. reflexivity.
Qed.

(** C7.  For both metrics and whatever the common number of columns, the
    call returns a matrix with as many rows as [left] and as many columns as
    [right] has rows; this includes one-row and zero-row inputs, for which
    nothing is raised. *)
Theorem output_shape (left right : tensor T) (metric : string) :
  wf left -> wf right -> ncols left = ncols right ->
  metric = "euclidean"%string \/ metric = "cosine"%string ->
  exists tr t,
    returns (tf_cdist left right metric) tr t /\
    nrows t = nrows left /\ ncols t = nrows right /\ wf t.
Proof.
  intros Hl Hr HD [-> | ->].
  - exists euclidean_calls, (pairwise euclidean_entry left right).
    split; [now apply tf_cdist_euclidean_returns|].
    repeat split; try reflexivity; now apply wf_pairwise.
  - exists cos_calls, (pairwise cos_entry left right).
    split; [now apply tf_cdist_cos_returns|].
    repeat split; try reflexivity; now apply wf_pairwise.
Qed.

(** C6, as amended.  When [left] and [right] have different numbers of
    columns, both metrics end with the [InvalidArgumentError] of the matrix
    product, raised by [tf.matmul] after the norms have been computed; no
    matrix is returned. *)
Theorem column_mismatch_raises_in_matmul (left right : tensor T) (metric : string) :
  wf left -> wf right -> ncols left <> ncols right ->
  metric = "euclidean"%string \/ metric = "cosine"%string ->
  exists tr,
    raises (tf_cdist left right metric) (tr ++ [Transpose; MatMul])
      (InvalidArgumentError "Matrix size-incompatible") /\
    forallb inspects tr = false.
Proof.
  intros Hl Hr HD [-> | ->].
  - exists (cast_calls ++ [Shape; Shape] ++ [Pow; ReduceSum; Reshape; Tile]
            ++ [Pow; ReduceSum; Reshape; Tile]).
    split; [|reflexivity].
    exact (tf_cdist_euclidean_mismatch Hl Hr HD).
  - exists (cast_calls ++ [Norm; Reshape] ++ [Norm; Reshape]).
    split; [|reflexivity].
    exact (tf_cdist_cos_mismatch Hl Hr HD).
Qed.

End Dispatch.

(* ----------------------------------------------------------------- *)
(** ** Entries in exact arithmetic *)

Section ExactClaims.
Import Exact ExactFacts.
Local Open Scope R_scope.

(** C1.  In any arithmetic, entry [(i, j)] of [sqr_sum] is the squared norm
    of [left_i], minus twice the cross term, plus the squared norm of
    [right_j], and the entry of the result is its clamped square root.  In
    exact arithmetic, for [left] and [right] with the same number of columns,
    that entry of [sqr_sum] is the squared norm of [left_i - right_j], and
    entry [(i, j)] of the result of [tf_cdist_euclidean] is the Euclidean
    distance between row [i] of [left] and row [j] of [right]. *)
Theorem euclidean_entries_are_distances :
  (forall (T : Type) (A : Arithmetic T) (left right : tensor T),
     wf left -> wf right -> ncols left = ncols right ->
     exists sqr_sum distance,
       returns (euclidean_sqr_sum left right) sqr_sum_calls sqr_sum /\
       returns (tf_cdist_euclidean left right) euclidean_calls distance /\
       forall i j u v,
         nth_error (rows left) i = Some u -> nth_error (rows right) j = Some v ->
         exists s,
           s = num_add (num_sub (sqr_norm u) (num_mul num_two (dot u v)))
                 (sqr_norm v) /\
           entry sqr_sum i j = Some s /\
           entry distance i j
           = Some (if num_gt s num_zero then num_sqrt s else num_zero))
  /\
  (forall (left right : tensor R),
     wf left -> wf right -> ncols left = ncols right ->
     exists sqr_sum distance,
       returns (euclidean_sqr_sum left right) sqr_sum_calls sqr_sum /\
       returns (tf_cdist_euclidean left right) euclidean_calls distance /\
       forall i j u v,
         nth_error (rows left) i = Some u -> nth_error (rows right) j = Some v ->
         entry sqr_sum i j
         = Some (Rsum (map (fun a => a * a) u) - 2 * dot_product u v
                 + Rsum (map (fun a => a * a) v)) /\
         entry sqr_sum i j = Some (squared_distance u v) /\
         entry distance i j = Some (euclidean_distance u v)).
Proof.
  split.
  - intros T A left right Hl Hr HD.
    exists (pairwise sqr_sum_entry left right), (pairwise euclidean_entry left right).
    split; [now apply euclidean_sqr_sum_returns|].
    split; [now apply tf_cdist_euclidean_returns|].
    intros i j u v Hu Hv. exists (sqr_sum_entry u v).
    rewrite !(entry_pairwise _ _ _ _ _ Hu Hv). repeat split.
  - intros left right Hl Hr HD.
    exists (pairwise sqr_sum_entry left right), (pairwise euclidean_entry left right).
    split; [now apply euclidean_sqr_sum_returns|].
    split; [now apply tf_cdist_euclidean_returns|].
    intros i j u v Hu Hv.
    pose proof (rows_agree _ _ Hl Hr HD Hu Hv) as Hlen.
    rewrite !(entry_pairwise _ _ _ _ _ Hu Hv).
    rewrite euclidean_entry_exact, sqr_sum_entry_exact by assumption.
    now rewrite sqr_sum_identity.
Qed.

(** C8, as amended.  In exact arithmetic, the Euclidean distances of a set of
    points to itself have a zero diagonal and are symmetric. *)
Theorem self_distance_exact (X : tensor R) :
  wf X ->
  exists distance,
    returns (tf_cdist X X "euclidean") euclidean_calls distance /\
    (forall i, (i < nrows X)%nat -> entry distance i i = Some 0) /\
    (forall i j, (i < nrows X)%nat -> (j < nrows X)%nat ->
       exists d, entry distance i j = Some d /\ entry distance j i = Some d).
Proof.
  intros HX. exists (pairwise euclidean_entry X X).
  split; [now apply (tf_cdist_euclidean_returns HX HX)|].
  destruct (HX) as [Hlen _]. split.
  - intros i Hi. rewrite <- Hlen in Hi.
    destruct (nth_error_in_range _ Hi) as [u Hu].
    rewrite (entry_pairwise _ _ _ _ _ Hu Hu).
    rewrite euclidean_entry_exact by reflexivity.
    unfold euclidean_distance. now rewrite squared_distance_self, sqrt_0.
  - intros i j Hi Hj. rewrite <- Hlen in Hi, Hj.
    destruct (nth_error_in_range _ Hi) as [u Hu].
    destruct (nth_error_in_range _ Hj) as [v Hv].
    pose proof (rows_agree _ _ HX HX eq_refl Hu Hv) as Huv.
    exists (euclidean_distance u v).
    rewrite (entry_pairwise _ _ _ _ _ Hu Hv), (entry_pairwise _ _ _ _ _ Hv Hu).
    rewrite !euclidean_entry_exact by congruence.
    unfold euclidean_distance. now rewrite (squared_distance_sym v u).
Qed.

(** C10, as amended.  In exact arithmetic, when no row of [left] or [right]
    has a zero norm, every entry of the result of [tf_cdist_cos] lies between
    0 and 2. *)
Theorem cosine_entries_bounded_exact (left right : tensor R) :
  wf left -> wf right -> ncols left = ncols right ->
  (forall u, In u (rows left) -> euclidean_norm u <> 0) ->
  (forall v, In v (rows right) -> euclidean_norm v <> 0) ->
  exists distance,
    returns (tf_cdist_cos left right) cos_calls distance /\
    forall i j, (i < nrows left)%nat -> (j < nrows right)%nat ->
      exists d, entry distance i j = Some d /\ 0 <= d <= 2.
Proof.
  intros Hl Hr HD Hnl Hnr. exists (pairwise cos_entry left right).
  split; [now apply tf_cdist_cos_returns|].
  intros i j Hi Hj.
  destruct (Hl) as [Hl1 _]. destruct (Hr) as [Hr1 _].
  rewrite <- Hl1 in Hi. rewrite <- Hr1 in Hj.
  destruct (nth_error_in_range _ Hi) as [u Hu].
  destruct (nth_error_in_range _ Hj) as [v Hv].
  exists (cos_entry u v). split; [now apply entry_pairwise|].
  rewrite cos_entry_cosine_distance.
  apply cosine_distance_bounds; [apply Hnl | apply Hnr]; eapply nth_error_In; eauto.
Qed.

End ExactClaims.

(* ----------------------------------------------------------------- *)
(** ** Rows of zeros in single precision *)

Module F32Rows.
Import F32.

Lemma fold_add_zero_or_nan (l : list spec_float) (a : spec_float) :
  zero_or_nan a = true -> Forall (fun x => zero_or_nan x = true) l ->
  zero_or_nan (fold_left num_add l a) = true.
Proof.
  intros Ha Hl. revert a Ha.
  induction Hl as [|x l Hx _ IH]; intros a Ha; simpl; [assumption|].
  apply IH.
  destruct a as [[|]| | |]; try discriminate;
    destruct x as [[|]| | |]; try discriminate; reflexivity.
Qed.

Lemma products_zero_l (u v : list spec_float) :
  all_zero u -> Forall (fun x => zero_or_nan x = true) (zip_with num_mul u v).
Proof.
  intros Hu. revert v.
  induction Hu as [|a u Ha _ IH]; intros [|b v]; simpl; constructor; [|apply IH].
  destruct a; try discriminate. destruct b; reflexivity.
Qed.

Lemma products_zero_r (u v : list spec_float) :
  all_zero v -> Forall (fun x => zero_or_nan x = true) (zip_with num_mul u v).
Proof.
  intros Hv. revert u.
  induction Hv as [|b v Hb _ IH]; intros [|a u]; simpl; constructor; [|apply IH].
  destruct b; try discriminate. destruct a; reflexivity.
Qed.

Lemma dot_zero_l (u v : list spec_float) : all_zero u -> zero_or_nan (dot u v) = true.
Proof.
  intros Hu. apply fold_add_zero_or_nan; [reflexivity | now apply products_zero_l].
Qed.

Lemma dot_zero_r (u v : list spec_float) : all_zero v -> zero_or_nan (dot u v) = true.
Proof.
  intros Hv. apply fold_add_zero_or_nan; [reflexivity | now apply products_zero_r].
Qed.

Lemma fold_add_positive_zeros (l : list spec_float) :
  Forall (fun x => x = S754_zero false) l ->
  fold_left num_add l (S754_zero false) = S754_zero false.
Proof.
  induction 1 as [|x l -> _ IH]; simpl; [reflexivity | exact IH].
Qed.

(** The norm of a row of zeros is [+0.0]. *)
Lemma norm_all_zero (u : list spec_float) : all_zero u -> norm u = S754_zero false.
Proof.
  intros Hu. unfold norm, reduce_sum.
  rewrite fold_add_positive_zeros; [reflexivity|].
  apply Forall_map. eapply Forall_impl; [|exact Hu].
  intros [[|]| | |]; simpl; try discriminate; reflexivity.
Qed.

Lemma cos_entry_nan_left (d nr : spec_float) :
  zero_or_nan d = true ->
  num_sub num_one (num_div (num_div d (S754_zero false)) nr) = S754_nan.
Proof.
  destruct d; try discriminate; intros _; destruct nr; reflexivity.
Qed.

Lemma cos_entry_nan_right (d nl : spec_float) :
  zero_or_nan d = true ->
  num_sub num_one (num_div (num_div d nl) (S754_zero false)) = S754_nan.
Proof.
  destruct d; try discriminate; intros _; destruct nl; reflexivity.
Qed.

End F32Rows.

(* ----------------------------------------------------------------- *)
(** ** The cosine routine, entry by entry *)

(** C2.  In any arithmetic, entry [(i, j)] of the result of [tf_cdist_cos] is
    1 minus the cross term [left_i . right_j] divided first by the norm of
    [left_i] and then by the norm of [right_j]; in exact arithmetic and for
    rows of nonzero norm this is 1 minus the dot product divided by the
    product of the two Euclidean norms. *)
Theorem cosine_entries_formula :
  (forall (T : Type) (A : Arithmetic T) (left right : tensor T),
     wf left -> wf right -> ncols left = ncols right ->
     exists distance,
       returns (tf_cdist_cos left right) cos_calls distance /\
       forall i j u v,
         nth_error (rows left) i = Some u -> nth_error (rows right) j = Some v ->
         entry distance i j
         = Some (num_sub num_one (num_div (num_div (dot u v) (norm u)) (norm v))))
  /\
  (forall (left right : tensor R),
     wf left -> wf right -> ncols left = ncols right ->
     (forall u, In u (rows left) -> Exact.euclidean_norm u <> 0%R) ->
     (forall v, In v (rows right) -> Exact.euclidean_norm v <> 0%R) ->
     exists distance,
       returns (tf_cdist_cos left right) cos_calls distance /\
       forall i j u v,
         nth_error (rows left) i = Some u -> nth_error (rows right) j = Some v ->
         entry distance i j
         = Some (1 - Exact.dot_product u v
                     / (Exact.euclidean_norm u * Exact.euclidean_norm v))%R).
Proof.
  split.
  - intros T A left right Hl Hr HD. exists (pairwise cos_entry left right).
    split; [now apply tf_cdist_cos_returns|].
    intros i j u v Hu Hv. now rewrite (entry_pairwise _ _ _ _ _ Hu Hv).
  - intros left right Hl Hr HD _ _. exists (pairwise cos_entry left right).
    split; [now apply tf_cdist_cos_returns|].
    intros i j u v Hu Hv. rewrite (entry_pairwise _ _ _ _ _ Hu Hv).
    now rewrite ExactFacts.cos_entry_cosine_distance.
Qed.

(** C3, as amended.  In single precision, the Euclidean routine returns the
    square root of [sqr_sum] wherever [sqr_sum > 0] and exactly [0.0]
    everywhere else (negative round-off and NaN included), so that each of
    its entries is at least 0.  In exact arithmetic the entries of both
    routines are at least 0, those of the cosine routine when no row has a
    zero norm. *)
Theorem entries_nonnegative :
  (forall (left right : tensor spec_float),
     wf left -> wf right -> ncols left = ncols right ->
     exists sqr_sum distance,
       returns (euclidean_sqr_sum left right) sqr_sum_calls sqr_sum /\
       returns (tf_cdist_euclidean left right) euclidean_calls distance /\
       forall i j, i < nrows left -> j < nrows right ->
         exists s d,
           entry sqr_sum i j = Some s /\ entry distance i j = Some d /\
           d = (if SFltb (S754_zero false) s
                then SFsqrt F32.prec F32.emax s else S754_zero false) /\
           F32.nonneg d = true)
  /\
  (forall (left right : tensor R),
     wf left -> wf right -> ncols left = ncols right ->
     exists distance,
       returns (tf_cdist_euclidean left right) euclidean_calls distance /\
       forall i j, i < nrows left -> j < nrows right ->
         exists d, entry distance i j = Some d /\ (0 <= d)%R)
  /\
  (forall (left right : tensor R),
     wf left -> wf right -> ncols left = ncols right ->
     (forall u, In u (rows left) -> Exact.euclidean_norm u <> 0%R) ->
     (forall v, In v (rows right) -> Exact.euclidean_norm v <> 0%R) ->
     exists distance,
       returns (tf_cdist_cos left right) cos_calls distance /\
       forall i j, i < nrows left -> j < nrows right ->
         exists d, entry distance i j = Some d /\ (0 <= d)%R).
Proof.
  split; [|split].
  - intros left right Hl Hr HD.
    exists (pairwise sqr_sum_entry left right), (pairwise euclidean_entry left right).
    split; [now apply euclidean_sqr_sum_returns|].
    split; [now apply tf_cdist_euclidean_returns|].
    intros i j Hi Hj.
    destruct (Hl) as [Hl1 _]. destruct (Hr) as [Hr1 _].
    rewrite <- Hl1 in Hi. rewrite <- Hr1 in Hj.
    destruct (nth_error_in_range _ Hi) as [u Hu].
    destruct (nth_error_in_range _ Hj) as [v Hv].
    exists (sqr_sum_entry u v), (euclidean_entry u v).
    rewrite !(entry_pairwise _ _ _ _ _ Hu Hv).
    repeat split. apply F32Facts.clamp_nonneg.
  - intros left right Hl Hr HD. exists (pairwise euclidean_entry left right).
    split; [now apply tf_cdist_euclidean_returns|].
    intros i j Hi Hj.
    destruct (Hl) as [Hl1 _]. destruct (Hr) as [Hr1 _].
    rewrite <- Hl1 in Hi. rewrite <- Hr1 in Hj.
    destruct (nth_error_in_range _ Hi) as [u Hu].
    destruct (nth_error_in_range _ Hj) as [v Hv].
    exists (euclidean_entry u v). split; [now apply entry_pairwise|].
    rewrite ExactFacts.euclidean_entry_exact
      by exact (rows_agree _ _ Hl Hr HD Hu Hv).
    apply sqrt_pos.
  - intros left right Hl Hr HD Hnl Hnr. exists (pairwise cos_entry left right).
    split; [now apply tf_cdist_cos_returns|].
    intros i j Hi Hj.
    destruct (Hl) as [Hl1 _]. destruct (Hr) as [Hr1 _].
    rewrite <- Hl1 in Hi. rewrite <- Hr1 in Hj.
    destruct (nth_error_in_range _ Hi) as [u Hu].
    destruct (nth_error_in_range _ Hj) as [v Hv].
    exists (cos_entry u v). split; [now apply entry_pairwise|].
    rewrite ExactFacts.cos_entry_cosine_distance.
    apply ExactFacts.cosine_distance_bounds;
      [apply Hnl | apply Hnr]; eapply nth_error_In; eauto.
Qed.

(** C5.  In single precision, [tf_cdist_cos] returns a matrix on every pair
    of inputs with the same number of columns, rows of zero norm included: it
    makes the same calls as on any other input, and entry [(i, j)] is the
    quotient by the two norms as they are.  If the norm of [left_i] or of
    [right_j] is zero the entry is an infinity or a NaN, and a NaN if the row
    itself is all zeros. *)
Theorem cosine_zero_norm_propagates (left right : tensor spec_float) :
  wf left -> wf right -> ncols left = ncols right ->
  exists distance,
    returns (tf_cdist_cos left right) cos_calls distance /\
    forall i j u v,
      nth_error (rows left) i = Some u -> nth_error (rows right) j = Some v ->
      exists d,
        entry distance i j = Some d /\
        d = num_sub num_one (num_div (num_div (dot u v) (norm u)) (norm v)) /\
        (F32.is_zero (norm u) = true \/ F32.is_zero (norm v) = true ->
         F32.is_finite d = false) /\
        (F32.all_zero u \/ F32.all_zero v -> d = S754_nan).
Proof.
  intros Hl Hr HD. exists (pairwise cos_entry left right).
  split; [now apply tf_cdist_cos_returns|].
  intros i j u v Hu Hv. exists (cos_entry u v).
  split; [now apply entry_pairwise|]. split; [reflexivity|]. split.
  - intros [H|H].
    + now apply F32Facts.cos_entry_zero_norm_left.
    + now apply F32Facts.cos_entry_zero_norm_right.
  - intros [H|H]; unfold cos_entry.
    + rewrite (F32Rows.norm_all_zero H).
      apply F32Rows.cos_entry_nan_left. now apply F32Rows.dot_zero_l.
    + rewrite (F32Rows.norm_all_zero H).
      apply F32Rows.cos_entry_nan_right. now apply F32Rows.dot_zero_r.
Qed.

(* ================================================================= *)
(** * Witnesses and counterexamples *)

Module SampleFacts.
Import Samples.

Lemma wf_doc_left : wf doc_left.
Proof. split; [reflexivity | repeat constructor]. Qed.

Lemma wf_doc_right : wf doc_right.
Proof. split; [reflexivity | repeat constructor]. Qed.

Lemma wf_no_rows : wf no_rows.
Proof. split; [reflexivity | constructor]. Qed.

Lemma wf_wide : wf wide.
Proof. split; [reflexivity | repeat constructor]. Qed.

Lemma wf_zero_row : wf zero_row.
Proof. split; [reflexivity | repeat constructor]. Qed.

Lemma wf_x35 : wf x35.
Proof. split; [reflexivity | repeat constructor]. Qed.

Lemma wf_x11 : wf x11.
Proof. split; [reflexivity | repeat constructor]. Qed.

Lemma wf_x33 : wf x33.
Proof. split; [reflexivity | repeat constructor]. Qed.

Lemma wf_x5795 : wf x5795.
Proof. split; [reflexivity | repeat constructor]. Qed.

Lemma wf_exact_left : wf exact_left.
Proof. split; [reflexivity | repeat constructor]. Qed.

Lemma wf_exact_right : wf exact_right.
Proof. split; [reflexivity | repeat constructor]. Qed.

Lemma exact_left_norms u : In u (rows exact_left) -> Exact.euclidean_norm u <> 0%R.
Proof.
  intros [<-|[<-|[]]]; unfold Exact.euclidean_norm; simpl; intros H;
    apply sqrt_eq_0 in H; lra.
Qed.

Lemma exact_right_norms v : In v (rows exact_right) -> Exact.euclidean_norm v <> 0%R.
Proof.
  intros [<-|[<-|[]]]; unfold Exact.euclidean_norm; simpl; intros H;
    apply sqrt_eq_0 in H; lra.
Qed.

(** The docstring of [tf_cdist]: about [[12.72, 15.55], [9.899, 12.72]]. *)
Example docstring_euclidean :
  returns (tf_cdist doc_left doc_right "euclidean") euclidean_calls
    (Tensor 2 2
       [[S754_finite false 13346194 (-20); S754_finite false 16312014 (-20)];
        [S754_finite false 10380373 (-20); S754_finite false 13346194 (-20)]]).
Proof. vm_compute. reflexivity. Qed.

(** The docstring of [tf_cdist_cos]: about [[0.037, 0.039], [0.004, 0.005]]. *)
Example docstring_cosine :
  returns (tf_cdist doc_left doc_right "cosine") cos_calls
    (Tensor 2 2
       [[S754_finite false 10025824 (-28); S754_finite false 10585968 (-28)];
        [S754_finite false 9543936 (-31); S754_finite false 11143680 (-31)]]).
Proof. vm_compute. reflexivity. Qed.

(** A ragged sequence is refused by the conversion. *)
Example ragged_refused :
  raises (tf_cdist ragged doc_right "euclidean") [ConvertToTensor]
    (ValueError "Can't convert non-rectangular Python sequence to Tensor.").
Proof. vm_compute. reflexivity. Qed.

(** A row of zeros gives a row of NaN. *)
Example zero_row_cosine :
  returns (tf_cdist zero_row doc_right "cosine") cos_calls
    (Tensor 1 2 [[S754_nan; S754_nan]]).
Proof. vm_compute. reflexivity. Qed.

End SampleFacts.

Import Samples SampleFacts.

Lemma euclidean_entries_are_distances_witness :
  wf exact_left /\ wf exact_right /\ ncols exact_left = ncols exact_right /\
  exists sqr_sum distance,
    returns (euclidean_sqr_sum exact_left exact_right) sqr_sum_calls sqr_sum /\
    returns (tf_cdist_euclidean exact_left exact_right) euclidean_calls distance /\
    forall i j u v,
      nth_error (rows exact_left) i = Some u ->
      nth_error (rows exact_right) j = Some v ->
      entry sqr_sum i j
      = Some (Exact.Rsum (map (fun a => a * a) u) - 2 * Exact.dot_product u v
              + Exact.Rsum (map (fun a => a * a) v))%R /\
      entry sqr_sum i j = Some (Exact.squared_distance u v) /\
      entry distance i j = Some (Exact.euclidean_distance u v).
Proof.
  split; [exact wf_exact_left|]. split; [exact wf_exact_right|].
  split; [reflexivity|].
  exact (proj2 euclidean_entries_are_distances _ _
           wf_exact_left wf_exact_right eq_refl).
Defined.

Lemma cosine_entries_formula_witness :
  wf doc_left /\ wf doc_right /\ ncols doc_left = ncols doc_right /\
  exists distance,
    returns (tf_cdist_cos doc_left doc_right) cos_calls distance /\
    forall i j u v,
      nth_error (rows doc_left) i = Some u -> nth_error (rows doc_right) j = Some v ->
      entry distance i j
      = Some (num_sub num_one (num_div (num_div (dot u v) (norm u)) (norm v))).
Proof.
  split; [exact wf_doc_left|]. split; [exact wf_doc_right|].
  split; [reflexivity|].
  exact (proj1 cosine_entries_formula _ _ _ _ wf_doc_left wf_doc_right eq_refl).
Defined.

Lemma entries_nonnegative_witness :
  wf doc_left /\ wf doc_right /\ ncols doc_left = ncols doc_right /\
  exists sqr_sum distance,
    returns (euclidean_sqr_sum doc_left doc_right) sqr_sum_calls sqr_sum /\
    returns (tf_cdist_euclidean doc_left doc_right) euclidean_calls distance /\
    forall i j, i < nrows doc_left -> j < nrows doc_right ->
      exists s d,
        entry sqr_sum i j = Some s /\ entry distance i j = Some d /\
        d = (if SFltb (S754_zero false) s
             then SFsqrt F32.prec F32.emax s else S754_zero false) /\
        F32.nonneg d = true.
Proof.
  split; [exact wf_doc_left|]. split; [exact wf_doc_right|].
  split; [reflexivity|].
  exact (proj1 entries_nonnegative _ _ wf_doc_left wf_doc_right eq_refl).
Defined.

(** C3, the claim as it stands fails: in single precision the cosine distance
    of [[3, 5]] to itself is [-2^-23], although the norm of the row is not
    zero: 34 divided twice by the rounded square root of 34 is [1 + 2^-23]. *)
Lemma cosine_entry_negative_binary32 :
  wf x35 /\
  F32.is_zero (norm [F32.of_Z 3; F32.of_Z 5]) = false /\
  returns (tf_cdist x35 x35 "cosine") cos_calls
    (Tensor 1 1 [[S754_finite true 8388608 (-46)]]) /\
  F32.nonneg (S754_finite true 8388608 (-46)) = false /\
  F32.negative (S754_finite true 8388608 (-46)) = true.
Proof.
  split; [exact wf_x35|]. repeat split; vm_compute; reflexivity.
Qed.

Lemma unsupported_metric_raises_witness :
  "manhattan"%string <> "euclidean"%string /\
  "manhattan"%string <> "cosine"%string /\
  tf_cdist ragged wide "manhattan"
  = ([], Raise (ValueError
        ("Metric type not understood: value " ++ "manhattan" ++ " is not valid!"))).
Proof.
  assert (He : "manhattan"%string <> "euclidean"%string) by discriminate.
  assert (Hc : "manhattan"%string <> "cosine"%string) by discriminate.
  split; [exact He|]. split; [exact Hc|].
  exact (unsupported_metric_raises ragged wide He Hc).
Defined.

Lemma cosine_zero_norm_propagates_witness :
  wf zero_row /\ wf doc_right /\ ncols zero_row = ncols doc_right /\
  exists distance,
    returns (tf_cdist_cos zero_row doc_right) cos_calls distance /\
    forall i j u v,
      nth_error (rows zero_row) i = Some u -> nth_error (rows doc_right) j = Some v ->
      exists d,
        entry distance i j = Some d /\
        d = num_sub num_one (num_div (num_div (dot u v) (norm u)) (norm v)) /\
        (F32.is_zero (norm u) = true \/ F32.is_zero (norm v) = true ->
         F32.is_finite d = false) /\
        (F32.all_zero u \/ F32.all_zero v -> d = S754_nan).
Proof.
  split; [exact wf_zero_row|]. split; [exact wf_doc_right|].
  split; [reflexivity|].
  exact (cosine_zero_norm_propagates wf_zero_row wf_doc_right eq_refl).
Defined.

Lemma column_mismatch_raises_in_matmul_witness :
  wf doc_left /\ wf wide /\ ncols doc_left <> ncols wide /\
  ("cosine"%string = "euclidean"%string \/ "cosine"%string = "cosine"%string) /\
  exists tr,
    raises (tf_cdist doc_left wide "cosine") (tr ++ [Transpose; MatMul])
      (InvalidArgumentError "Matrix size-incompatible") /\
    forallb inspects tr = false.
Proof.
  assert (HD : ncols doc_left <> ncols wide) by (simpl; lia).
  split; [exact wf_doc_left|]. split; [exact wf_wide|]. split; [exact HD|].
  split; [right; reflexivity|].
  exact (column_mismatch_raises_in_matmul wf_doc_left wf_wide HD (or_intror eq_refl)).
Defined.

(** C6, the claim as it stands fails: on [[1, 2], [3, 4]] against [[1, 2, 3]]
    the exception is the one of [tf.matmul], raised after both squared norms
    have been computed, reshaped and tiled; nothing validates the widths
    beforehand. *)
Lemma column_mismatch_not_validated :
  raises (tf_cdist doc_left wide "euclidean")
    [ConvertToTensor; Cast; ConvertToTensor; Cast; Shape; Shape;
     Pow; ReduceSum; Reshape; Tile; Pow; ReduceSum; Reshape; Tile;
     Transpose; MatMul]
    (InvalidArgumentError "Matrix size-incompatible") /\
  ~ fails_with_dimension_mismatch (tf_cdist doc_left wide "euclidean").
Proof.
  assert (H : raises (tf_cdist doc_left wide "euclidean")
    [ConvertToTensor; Cast; ConvertToTensor; Cast; Shape; Shape;
     Pow; ReduceSum; Reshape; Tile; Pow; ReduceSum; Reshape; Tile;
     Transpose; MatMul]
    (InvalidArgumentError "Matrix size-incompatible"))
    by (vm_compute; reflexivity).
  split; [exact H|].
  intros (tr & e & Hr & Hi). unfold raises in *.
  rewrite H in Hr. injection Hr as <- _. discriminate Hi.
Qed.

Lemma output_shape_witness :
  wf no_rows /\ wf doc_right /\ ncols no_rows = ncols doc_right /\
  ("cosine"%string = "euclidean"%string \/ "cosine"%string = "cosine"%string) /\
  exists tr t,
    returns (tf_cdist no_rows doc_right "cosine") tr t /\
    nrows t = nrows no_rows /\ ncols t = nrows doc_right /\ wf t.
Proof.
  split; [exact wf_no_rows|]. split; [exact wf_doc_right|].
  split; [reflexivity|]. split; [right; reflexivity|].
  exact (output_shape wf_no_rows wf_doc_right eq_refl (or_intror eq_refl)).
Defined.

Lemma self_distance_exact_witness :
  wf exact_left /\
  exists distance,
    returns (tf_cdist exact_left exact_left "euclidean") euclidean_calls distance /\
    (forall i, i < nrows exact_left -> entry distance i i = Some 0%R) /\
    (forall i j, i < nrows exact_left -> j < nrows exact_left ->
       exists d, entry distance i j = Some d /\ entry distance j i = Some d).
Proof.
  split; [exact wf_exact_left|].
  exact (self_distance_exact wf_exact_left).
Defined.

(** C8, the claim as it stands fails: in single precision, for the points
    [5795] and [1], the two mirrored distances are [5793.9995] and [5794].
    The numbers between [2^25] and [2^26] are the multiples of 4: the square
    of 5795 is 33582024 after rounding, and [sqr_sum] is
    [(33582024 - 11590) + 1], that is 33570432 after the two roundings, at
    [(0, 1)], but [(1 - 11590) + 33582024], that is 33570436, at [(1, 0)]. *)
Lemma self_distance_asymmetric_binary32 :
  wf x5795 /\
  returns (tf_cdist x5795 x5795 "euclidean") euclidean_calls
    (Tensor 2 2
       [[S754_zero false; S754_finite false 11866111 (-11)];
        [S754_finite false 11866112 (-11); S754_zero false]]) /\
  SFeqb (S754_finite false 11866111 (-11)) (S754_finite false 11866112 (-11)) = false /\
  S754_finite false 11866112 (-11) = F32.of_Z 5794.
Proof.
  split; [exact wf_x5795|]. repeat split; vm_compute; reflexivity.
Qed.

Lemma cosine_entries_bounded_exact_witness :
  wf exact_left /\ wf exact_right /\ ncols exact_left = ncols exact_right /\
  (forall u, In u (rows exact_left) -> Exact.euclidean_norm u <> 0%R) /\
  (forall v, In v (rows exact_right) -> Exact.euclidean_norm v <> 0%R) /\
  exists distance,
    returns (tf_cdist_cos exact_left exact_right) cos_calls distance /\
    forall i j, i < nrows exact_left -> j < nrows exact_right ->
      exists d, entry distance i j = Some d /\ (0 <= d <= 2)%R.
Proof.
  split; [exact wf_exact_left|]. split; [exact wf_exact_right|].
  split; [reflexivity|].
  split; [exact exact_left_norms|]. split; [exact exact_right_norms|].
  exact (cosine_entries_bounded_exact wf_exact_left wf_exact_right eq_refl
           exact_left_norms exact_right_norms).
Defined.

(** C10, the claim as it stands fails: in single precision the cosine distance
    between [[1, 1]] and [[3, 3]], two rows of nonzero norm, is [-2^-23],
    below the interval. *)
Lemma cosine_entry_below_zero_binary32 :
  wf x11 /\ wf x33 /\
  F32.is_zero (norm [F32.of_Z 1; F32.of_Z 1]) = false /\
  F32.is_zero (norm [F32.of_Z 3; F32.of_Z 3]) = false /\
  returns (tf_cdist_cos x11 x33) cos_calls
    (Tensor 1 1 [[S754_finite true 8388608 (-46)]]) /\
  F32.negative (S754_finite true 8388608 (-46)) = true.
Proof.
  split; [exact wf_x11|]. split; [exact wf_x33|].
  repeat split; vm_compute; reflexivity.
Qed.

(* ================================================================= *)
(** * Further properties of [util_similarity.py] *)

(** ** Which calls return *)

Section Outcomes.

Context {T : Type} {A : Arithmetic T}.


Lemma cast_raises_left (left right : tensor T) :
  wfb left = false ->
  raises (__cast_left_and_right_to_tensors left right) [ConvertToTensor]
    (ValueError "Can't convert non-rectangular Python sequence to Tensor.").
Proof.
  intros H. unfold __cast_left_and_right_to_tensors, tf_convert_to_tensor.
  rewrite H. reflexivity.
Qed.

Lemma cast_raises_right (left right : tensor T) :
  wfb left = true -> wfb right = false ->
  raises (__cast_left_and_right_to_tensors left right)
    [ConvertToTensor; Cast; ConvertToTensor]
    (ValueError "Can't convert non-rectangular Python sequence to Tensor.").
Proof.
  intros Hl Hr. unfold __cast_left_and_right_to_tensors, tf_convert_to_tensor.
  rewrite Hl, Hr. reflexivity.
Qed.

Lemma cast_raises_first (left right : tensor T) (metric : string) tr e :
  metric = "euclidean"%string \/ metric = "cosine"%string ->
  raises (__cast_left_and_right_to_tensors left right) tr e ->
  raises (tf_cdist left right metric) tr e.
Proof.
  intros [-> | ->] H.
  - change (raises (tf_cdist_euclidean left right) tr e).
    unfold tf_cdist_euclidean, euclidean_sqr_sum.
    now apply raises_bind_now, raises_bind_now.
  - change (raises (tf_cdist_cos left right) tr e).
    unfold tf_cdist_cos. now apply raises_bind_now.
Qed.


(** X2.  With a supported metric, a ragged [left] or [right] ends the call
    with the [ValueError] of the conversion, before anything is computed;
    [left] is converted first, so that a ragged [left] is reported after a
    single call, whatever [right] is. *)
Theorem ragged_input_refused (left right : tensor T) (metric : string) :
  metric = "euclidean"%string \/ metric = "cosine"%string ->
  wfb left = false \/ wfb right = false ->
  exists tr,
    raises (tf_cdist left right metric) tr
      (ValueError "Can't convert non-rectangular Python sequence to Tensor.") /\
    forallb inspects tr = true /\
    (wfb left = false -> tr = [ConvertToTensor]).
Proof.
  intros Hm Hragged. destruct (wfb left) eqn:Hl.
  - destruct Hragged as [H|Hr]; [discriminate H|].
    exists [ConvertToTensor; Cast; ConvertToTensor].
    split; [|split; [reflexivity | discriminate]].
    now apply cast_raises_first, cast_raises_right.
  - exists [ConvertToTensor].
    split; [|split; reflexivity].
    now apply cast_raises_first, cast_raises_left.
Qed.

(** X3.  [__get_tensor_sqr] as [tf_cdist_euclidean] calls it.  For [left], a
    column of squared norms tiled [n] times: every entry of row [i] is the
    sum of the squares of row [i] of the argument.  For [right], a row of
    squared norms tiled [n] times: every entry of column [j] is the sum of
    the squares of row [j] of the argument. *)
Theorem get_tensor_sqr_entries (t : tensor T) (n : nat) :
  wf t ->
  (exists c,
     returns (__get_tensor_sqr t (-1, 1)%Z (1, n)) [Pow; ReduceSum; Reshape; Tile] c /\
     nrows c = nrows t /\ ncols c = n /\ wf c /\
     forall i j u, nth_error (rows t) i = Some u -> j < n ->
       entry c i j = Some (reduce_sum (map (fun a => num_mul a a) u)))
  /\
  (exists r,
     returns (__get_tensor_sqr t (1, -1)%Z (n, 1)) [Pow; ReduceSum; Reshape; Tile] r /\
     nrows r = n /\ ncols r = nrows t /\ wf r /\
     forall i j u, i < n -> nth_error (rows t) j = Some u ->
       entry r i j = Some (reduce_sum (map (fun a => num_mul a a) u))).
Proof.
  intros [Ht _]. split.
  - eexists. split; [now apply tensor_sqr_column|].
    split; [reflexivity|]. split; [reflexivity|]. split.
    + split; cbn [nrows ncols rows]; [now rewrite length_map|].
      apply Forall_map, Forall_forall. intros u _. apply repeat_length.
    + intros i j u Hu Hj. unfold entry. cbn [rows].
      rewrite nth_error_map, Hu. cbn [option_map].
      now apply nth_error_repeat.
  - eexists. split; [now apply tensor_sqr_row|].
    split; [reflexivity|]. split; [reflexivity|]. split.
    + split; cbn [nrows ncols rows]; [apply repeat_length|].
      apply Forall_forall. intros x Hx. apply repeat_spec in Hx. subst x.
      now rewrite length_map.
    + intros i j u Hi Hu. unfold entry. cbn [rows].
      rewrite (nth_error_repeat _ Hi).
      rewrite nth_error_map, Hu. reflexivity.
Qed.

(** X4.  [__get_tensor_reshaped_norm] as [tf_cdist_cos] calls it: with
    [(-1, 1)] a column and with [(1, -1)] a row, holding the norm of each row
    of the argument in order. *)
Theorem get_tensor_reshaped_norm_entries (t : tensor T) :
  wf t ->
  (exists c,
     returns (__get_tensor_reshaped_norm t (-1, 1)%Z) [Norm; Reshape] c /\
     nrows c = nrows t /\ ncols c = 1 /\ wf c /\
     forall i u, nth_error (rows t) i = Some u -> entry c i 0 = Some (norm u))
  /\
  (exists r,
     returns (__get_tensor_reshaped_norm t (1, -1)%Z) [Norm; Reshape] r /\
     nrows r = 1 /\ ncols r = nrows t /\ wf r /\
     forall j u, nth_error (rows t) j = Some u -> entry r 0 j = Some (norm u)).
Proof.
  intros [Ht _]. split.
  - eexists. split; [now apply reshaped_norm_column|].
    split; [reflexivity|]. split; [reflexivity|]. split.
    + split; cbn [nrows ncols rows]; [now rewrite length_map|].
      apply Forall_map, Forall_forall. intros u _. reflexivity.
    + intros i u Hu. unfold entry. cbn [rows].
      rewrite nth_error_map, Hu. reflexivity.
  - eexists. split; [now apply reshaped_norm_row|].
    split; [reflexivity|]. split; [reflexivity|]. split.
    + split; cbn [nrows ncols rows]; [reflexivity|].
      constructor; [|constructor]. now rewrite length_map.
    + intros j u Hu. unfold entry. cbn [rows nth_error].
      rewrite nth_error_map, Hu. reflexivity.
Qed.

End Outcomes.

(** ** Edge values in single precision *)

Module F32Edges.
Import F32.

Lemma fold_add_nan (l : list spec_float) (a : spec_float) :
  a = S754_nan \/ In S754_nan l -> fold_left num_add l a = S754_nan.
Proof.
  revert a. induction l as [|x l IH]; intros a [Ha|Hl]; simpl.
  - exact Ha.
  - destruct Hl.
  - apply IH. left. now subst a.
  - apply IH. destruct Hl as [->|Hl]; [left | now right].
    destruct a; reflexivity.
Qed.

Lemma sqr_norm_nan (u : list spec_float) : In S754_nan u -> sqr_norm u = S754_nan.
Proof.
  intros H. unfold sqr_norm, reduce_sum. apply fold_add_nan. right.
  change S754_nan with ((fun a : spec_float => num_mul a a) S754_nan).
  now apply in_map.
Qed.

Lemma euclidean_entry_nan_left (u v : list spec_float) :
  In S754_nan u -> euclidean_entry u v = S754_zero false.
Proof.
  intros H. unfold euclidean_entry, sqr_sum_entry. now rewrite (sqr_norm_nan _ H).
Qed.

Lemma euclidean_entry_nan_right (u v : list spec_float) :
  In S754_nan v -> euclidean_entry u v = S754_zero false.
Proof.
  intros H. unfold euclidean_entry, sqr_sum_entry. rewrite (sqr_norm_nan _ H).
  cbn [num_add num_sub binary32].
  destruct (SFsub prec emax (sqr_norm u) _); reflexivity.
Qed.

Lemma empty_row {E} (t : tensor E) i u :
  wf t -> ncols t = 0 -> nth_error (rows t) i = Some u -> u = [].
Proof.
  intros Ht H0 Hu. apply (row_length _ Ht) in Hu. rewrite H0 in Hu.
  now destruct u.
Qed.

End F32Edges.

(** X5.  In single precision, a NaN among the inputs does not show in the
    result of [tf_cdist_euclidean]: [sqr_sum] is NaN there, the test
    [sqr_sum > 0.0] is false, and the distance between a row that holds a NaN
    and any other row is reported as [0.0]. *)
Theorem euclidean_nan_reported_as_zero (left right : tensor spec_float) :
  wf left -> wf right -> ncols left = ncols right ->
  exists distance,
    returns (tf_cdist_euclidean left right) euclidean_calls distance /\
    forall i j u v,
      nth_error (rows left) i = Some u -> nth_error (rows right) j = Some v ->
      In S754_nan u \/ In S754_nan v ->
      entry distance i j = Some (S754_zero false).
Proof.
  intros Hl Hr HD. exists (pairwise euclidean_entry left right).
  split; [now apply tf_cdist_euclidean_returns|].
  intros i j u v Hu Hv Hnan. rewrite (entry_pairwise _ _ _ _ _ Hu Hv). f_equal.
  destruct Hnan as [H|H].
  - now apply F32Edges.euclidean_entry_nan_left.
  - now apply F32Edges.euclidean_entry_nan_right.
Qed.

(** X6.  In single precision, on inputs with no column at all (shape
    [(N, 0)]) both routines return an [N_left] by [N_right] matrix: every
    Euclidean distance is [0.0] and every cosine distance is NaN, the norms
    being sums over nothing. *)
Theorem zero_width_inputs (left right : tensor spec_float) :
  wf left -> wf right -> ncols left = 0 -> ncols right = 0 ->
  (exists distance,
     returns (tf_cdist_euclidean left right) euclidean_calls distance /\
     forall i j, i < nrows left -> j < nrows right ->
       entry distance i j = Some (S754_zero false))
  /\
  (exists distance,
     returns (tf_cdist_cos left right) cos_calls distance /\
     forall i j, i < nrows left -> j < nrows right ->
       entry distance i j = Some S754_nan).
Proof.
  intros Hl Hr Hl0 Hr0.
  assert (HD : ncols left = ncols right) by congruence.
  destruct (Hl) as [Hl1 _]. destruct (Hr) as [Hr1 _].
  split.
  - exists (pairwise euclidean_entry left right).
    split; [now apply tf_cdist_euclidean_returns|].
    intros i j Hi Hj. rewrite <- Hl1 in Hi. rewrite <- Hr1 in Hj.
    destruct (nth_error_in_range _ Hi) as [u Hu].
    destruct (nth_error_in_range _ Hj) as [v Hv].
    rewrite (entry_pairwise _ _ _ _ _ Hu Hv).
    rewrite (F32Edges.empty_row _ Hl Hl0 Hu), (F32Edges.empty_row _ Hr Hr0 Hv).
    reflexivity.
  - exists (pairwise cos_entry left right).
    split; [now apply tf_cdist_cos_returns|].
    intros i j Hi Hj. rewrite <- Hl1 in Hi. rewrite <- Hr1 in Hj.
    destruct (nth_error_in_range _ Hi) as [u Hu].
    destruct (nth_error_in_range _ Hj) as [v Hv].
    rewrite (entry_pairwise _ _ _ _ _ Hu Hv).
    rewrite (F32Edges.empty_row _ Hl Hl0 Hu), (F32Edges.empty_row _ Hr Hr0 Hv).
    reflexivity.
Qed.

(** ** The two distances in exact arithmetic *)

Module ExactMetric.
Import Exact ExactFacts.
Local Open Scope R_scope.

Lemma dot_product_comm (u v : list R) : dot_product u v = dot_product v u.
Proof.
  unfold dot_product. revert v.
  induction u as [|a u IH]; intros [|b v]; simpl; try reflexivity.
  rewrite (IH v). lra.
Qed.

Lemma cosine_distance_sym (u v : list R) : cosine_distance u v = cosine_distance v u.
Proof.
  unfold cosine_distance.
  now rewrite dot_product_comm, (Rmult_comm (euclidean_norm u)).
Qed.

Lemma squared_distance_zero (u v : list R) :
  length u = length v -> squared_distance u v = 0 -> u = v.
Proof.
  unfold squared_distance. revert v.
  induction u as [|a u IH]; intros [|b v] Hlen H; simpl in *; try discriminate.
  - reflexivity.
  - pose proof (squared_distance_nonneg u v) as Hrest.
    unfold squared_distance in Hrest.
    pose proof (Rle_0_sqr (a - b)) as Hsq. unfold Rsqr in Hsq.
    assert (Ha : (a - b) * (a - b) = 0) by lra.
    assert (Hu : Rsum (zip_with (fun a b => (a - b) * (a - b)) u v) = 0) by lra.
    apply Rmult_integral in Ha.
    f_equal; [destruct Ha; lra | apply IH; [congruence | exact Hu]].
Qed.

Lemma euclidean_distance_zero_iff (u v : list R) :
  length u = length v -> (euclidean_distance u v = 0 <-> u = v).
Proof.
  intros Hlen. unfold euclidean_distance. split.
  - intros H. apply squared_distance_zero; [exact Hlen|].
    apply sqrt_eq_0; [apply squared_distance_nonneg | exact H].
  - intros <-. now rewrite squared_distance_self, sqrt_0.
Qed.

Lemma squared_distance_as_norm (u v : list R) :
  squared_distance u v = Rsum (map (fun a => a * a) (zip_with Rminus u v)).
Proof.
  unfold squared_distance. revert v.
  induction u as [|a u IH]; intros [|b v]; simpl; try reflexivity.
  now rewrite (IH v).
Qed.

Lemma sum_squares_of_sum (x y : list R) :
  length x = length y ->
  Rsum (map (fun a => a * a) (zip_with Rplus x y))
  = Rsum (map (fun a => a * a) x) + 2 * dot_product x y
    + Rsum (map (fun a => a * a) y).
Proof.
  unfold dot_product. revert y.
  induction x as [|a x IH]; intros [|b y] H; simpl in *; try discriminate.
  - lra.
  - rewrite (IH y) by congruence. lra.
Qed.

(** Minkowski's inequality for the Euclidean norm. *)
Lemma euclidean_norm_triangle (x y : list R) :
  length x = length y ->
  euclidean_norm (zip_with Rplus x y) <= euclidean_norm x + euclidean_norm y.
Proof.
  intros Hlen.
  pose proof (dot_product_bound x y) as [_ Hxy].
  pose proof (sqrt_sqrt _ (sum_squares_nonneg x)) as Hpp.
  pose proof (sqrt_sqrt _ (sum_squares_nonneg y)) as Hqq.
  pose proof (sqrt_pos (Rsum (map (fun a => a * a) x))) as Hp.
  pose proof (sqrt_pos (Rsum (map (fun a => a * a) y))) as Hq.
  unfold euclidean_norm in *. rewrite (sum_squares_of_sum _ _ Hlen).
  set (p := sqrt (Rsum (map (fun a => a * a) x))) in *.
  set (q := sqrt (Rsum (map (fun a => a * a) y))) in *.
  rewrite <- (sqrt_square (p + q)) by lra.
  apply sqrt_le_1_alt. lra.
Qed.

Lemma difference_chain (u v w : list R) :
  length u = length v -> length v = length w ->
  zip_with Rminus u w = zip_with Rplus (zip_with Rminus u v) (zip_with Rminus v w).
Proof.
  revert v w. induction u as [|a u IH]; intros [|b v] [|c w] H1 H2;
    simpl in *; try discriminate; try reflexivity.
  f_equal; [lra | apply IH; congruence].
Qed.

Lemma euclidean_distance_triangle (u v w : list R) :
  length u = length v -> length v = length w ->
  euclidean_distance u w <= euclidean_distance u v + euclidean_distance v w.
Proof.
  intros H1 H2. unfold euclidean_distance. rewrite !squared_distance_as_norm.
  rewrite (difference_chain _ _ _ H1 H2).
  apply (euclidean_norm_triangle (zip_with Rminus u v) (zip_with Rminus v w)).
  rewrite !zip_with_length; congruence.
Qed.

Lemma unit_norm_squares (u : list R) :
  euclidean_norm u = 1 -> Rsum (map (fun a => a * a) u) = 1.
Proof.
  intros H. pose proof (sqrt_sqrt _ (sum_squares_nonneg u)) as Hs.
  unfold euclidean_norm in H. rewrite H in Hs. lra.
Qed.

(** For two unit vectors the squared Euclidean distance is twice the cosine
    distance. *)
Lemma unit_vectors_distances (u v : list R) :
  length u = length v -> euclidean_norm u = 1 -> euclidean_norm v = 1 ->
  euclidean_distance u v * euclidean_distance u v = 2 * cosine_distance u v.
Proof.
  intros Hlen Hu Hv. unfold euclidean_distance.
  rewrite sqrt_sqrt by apply squared_distance_nonneg.
  rewrite <- (sqr_sum_identity _ _ Hlen).
  rewrite (unit_norm_squares _ Hu), (unit_norm_squares _ Hv).
  unfold cosine_distance. rewrite Hu, Hv. lra.
Qed.

End ExactMetric.

Section ExactMetricOnTensors.
Import Exact ExactFacts ExactMetric.
Local Open Scope R_scope.

(** X7.  In exact arithmetic, exchanging [left] and [right] transposes the
    result: entry [(j, i)] of the distances from [right] to [left] is entry
    [(i, j)] of the distances from [left] to [right], for the Euclidean
    routine and, when no row has a zero norm, for the cosine routine. *)
Theorem exchanged_arguments_transpose (left right : tensor R) :
  wf left -> wf right -> ncols left = ncols right ->
  (exists there back,
     returns (tf_cdist_euclidean left right) euclidean_calls there /\
     returns (tf_cdist_euclidean right left) euclidean_calls back /\
     forall i j, (i < nrows left)%nat -> (j < nrows right)%nat ->
       exists d, entry there i j = Some d /\ entry back j i = Some d)
  /\
  ((forall u, In u (rows left) -> euclidean_norm u <> 0) ->
   (forall v, In v (rows right) -> euclidean_norm v <> 0) ->
   exists there back,
     returns (tf_cdist_cos left right) cos_calls there /\
     returns (tf_cdist_cos right left) cos_calls back /\
     forall i j, (i < nrows left)%nat -> (j < nrows right)%nat ->
       exists d, entry there i j = Some d /\ entry back j i = Some d).
Proof.
  intros Hl Hr HD.
  destruct (Hl) as [Hl1 _]. destruct (Hr) as [Hr1 _].
  split.
  - exists (pairwise euclidean_entry left right), (pairwise euclidean_entry right left).
    split; [now apply tf_cdist_euclidean_returns|].
    split; [now apply tf_cdist_euclidean_returns|].
    intros i j Hi Hj. rewrite <- Hl1 in Hi. rewrite <- Hr1 in Hj.
    destruct (nth_error_in_range _ Hi) as [u Hu].
    destruct (nth_error_in_range _ Hj) as [v Hv].
    pose proof (rows_agree _ _ Hl Hr HD Hu Hv) as Hlen.
    exists (euclidean_distance u v).
    rewrite (entry_pairwise _ _ _ _ _ Hu Hv), (entry_pairwise _ _ _ _ _ Hv Hu).
    rewrite !euclidean_entry_exact by congruence.
    unfold euclidean_distance. now rewrite (squared_distance_sym v u).
  - intros _ _.
    exists (pairwise cos_entry left right), (pairwise cos_entry right left).
    split; [now apply tf_cdist_cos_returns|].
    split; [now apply tf_cdist_cos_returns|].
    intros i j Hi Hj. rewrite <- Hl1 in Hi. rewrite <- Hr1 in Hj.
    destruct (nth_error_in_range _ Hi) as [u Hu].
    destruct (nth_error_in_range _ Hj) as [v Hv].
    exists (cosine_distance u v).
    rewrite (entry_pairwise _ _ _ _ _ Hu Hv), (entry_pairwise _ _ _ _ _ Hv Hu).
    rewrite !cos_entry_cosine_distance. now rewrite (cosine_distance_sym v u).
Qed.

(** X8.  In exact arithmetic, an entry of the result of [tf_cdist_euclidean]
    is 0 exactly when the two rows are the same. *)
Theorem euclidean_zero_iff_same_row (left right : tensor R) :
  wf left -> wf right -> ncols left = ncols right ->
  exists distance,
    returns (tf_cdist_euclidean left right) euclidean_calls distance /\
    forall i j u v,
      nth_error (rows left) i = Some u -> nth_error (rows right) j = Some v ->
      (entry distance i j = Some 0 <-> u = v).
Proof.
  intros Hl Hr HD. exists (pairwise euclidean_entry left right).
  split; [now apply tf_cdist_euclidean_returns|].
  intros i j u v Hu Hv.
  pose proof (rows_agree _ _ Hl Hr HD Hu Hv) as Hlen.
  rewrite (entry_pairwise _ _ _ _ _ Hu Hv), euclidean_entry_exact by assumption.
  rewrite <- (euclidean_distance_zero_iff _ _ Hlen).
  split; [now intros [= ->] | now intros ->].
Qed.

(** X9.  In exact arithmetic the Euclidean routine obeys the triangle
    inequality: for three sets of points of the same width, the distance from
    a row of the first to a row of the third is at most the sum of the
    distances through any row of the second. *)
Theorem euclidean_triangle_inequality (a b c : tensor R) :
  wf a -> wf b -> wf c -> ncols a = ncols b -> ncols b = ncols c ->
  exists ab bc ac,
    returns (tf_cdist_euclidean a b) euclidean_calls ab /\
    returns (tf_cdist_euclidean b c) euclidean_calls bc /\
    returns (tf_cdist_euclidean a c) euclidean_calls ac /\
    forall i j k, (i < nrows a)%nat -> (j < nrows b)%nat -> (k < nrows c)%nat ->
      exists x y z,
        entry ab i j = Some x /\ entry bc j k = Some y /\ entry ac i k = Some z /\
        z <= x + y.
Proof.
  intros Ha Hb Hc Hab Hbc.
  exists (pairwise euclidean_entry a b), (pairwise euclidean_entry b c),
    (pairwise euclidean_entry a c).
  split; [now apply tf_cdist_euclidean_returns|].
  split; [now apply tf_cdist_euclidean_returns|].
  split; [apply tf_cdist_euclidean_returns; congruence|].
  intros i j k Hi Hj Hk.
  destruct (Ha) as [Ha1 _]. destruct (Hb) as [Hb1 _]. destruct (Hc) as [Hc1 _].
  rewrite <- Ha1 in Hi. rewrite <- Hb1 in Hj. rewrite <- Hc1 in Hk.
  destruct (nth_error_in_range _ Hi) as [u Hu].
  destruct (nth_error_in_range _ Hj) as [v Hv].
  destruct (nth_error_in_range _ Hk) as [w Hw].
  pose proof (rows_agree _ _ Ha Hb Hab Hu Hv) as Huv.
  pose proof (rows_agree _ _ Hb Hc Hbc Hv Hw) as Hvw.
  exists (euclidean_distance u v), (euclidean_distance v w), (euclidean_distance u w).
  rewrite (entry_pairwise _ _ _ _ _ Hu Hv), (entry_pairwise _ _ _ _ _ Hv Hw),
    (entry_pairwise _ _ _ _ _ Hu Hw).
  rewrite !euclidean_entry_exact by congruence.
  repeat split. now apply euclidean_distance_triangle.
Qed.

(** X10.  In exact arithmetic, when every row of [left] and [right] has norm
    1, the two routines agree: the square of each Euclidean distance is twice
    the cosine distance in the same place. *)
Theorem unit_rows_relate_the_distances (left right : tensor R) :
  wf left -> wf right -> ncols left = ncols right ->
  (forall u, In u (rows left) -> euclidean_norm u = 1) ->
  (forall v, In v (rows right) -> euclidean_norm v = 1) ->
  exists euclidean cosine,
    returns (tf_cdist left right "euclidean") euclidean_calls euclidean /\
    returns (tf_cdist left right "cosine") cos_calls cosine /\
    forall i j, (i < nrows left)%nat -> (j < nrows right)%nat ->
      exists x y,
        entry euclidean i j = Some x /\ entry cosine i j = Some y /\
        x * x = 2 * y.
Proof.
  intros Hl Hr HD Hnl Hnr.
  exists (pairwise euclidean_entry left right), (pairwise cos_entry left right).
  split; [now apply (tf_cdist_euclidean_returns Hl Hr)|].
  split; [now apply (tf_cdist_cos_returns Hl Hr)|].
  intros i j Hi Hj.
  destruct (Hl) as [Hl1 _]. destruct (Hr) as [Hr1 _].
  rewrite <- Hl1 in Hi. rewrite <- Hr1 in Hj.
  destruct (nth_error_in_range _ Hi) as [u Hu].
  destruct (nth_error_in_range _ Hj) as [v Hv].
  pose proof (rows_agree _ _ Hl Hr HD Hu Hv) as Hlen.
  exists (euclidean_distance u v), (cosine_distance u v).
  rewrite !(entry_pairwise _ _ _ _ _ Hu Hv).
  rewrite euclidean_entry_exact, cos_entry_cosine_distance by assumption.
  repeat split.
  apply unit_vectors_distances; [exact Hlen | apply Hnl | apply Hnr];
    eapply nth_error_In; eauto.
Qed.

End ExactMetricOnTensors.

(* ================================================================= *)
(** * [nnumpy.py]: [np_list_intersection] and [np_add_remove] *)

Module NnumpyFacts.
Import Nnumpy.

Section Containers.

Context {X : Type} (X_eq_dec : forall x y : X, {x = y} + {x <> y}).

Lemma contains_iff (l : list X) (x : X) : contains X_eq_dec l x = true <-> In x l.
Proof.
  unfold contains. destruct (in_dec X_eq_dec x l); split; intros; try discriminate; tauto.
Qed.

Lemma filter_all {Y} (f : Y -> bool) (l : list Y) :
  (forall y, In y l -> f y = true) -> filter f l = l.
Proof.
  induction l as [|y l IH]; intros H; simpl; [reflexivity|].
  rewrite (H y (or_introl eq_refl)). f_equal. apply IH. intros; apply H. now right.
Qed.

Lemma count_occ_filter (f : X -> bool) (l : list X) (x : X) :
  count_occ X_eq_dec (filter f l) x = if f x then count_occ X_eq_dec l x else 0.
Proof.
  induction l as [|y l IH]; simpl.
  - now destruct (f x).
  - destruct (f y) eqn:Hy; simpl; destruct (X_eq_dec y x) as [->|Hne];
      rewrite IH; try reflexivity.
    + now rewrite Hy.
    + now rewrite Hy.
Qed.

(** What the removals leave, when none of them fails. *)
Lemma remove_each_returned (s : ListSet.set X) (rm : list X) (r : ListSet.set X) :
  NoDup s -> remove_each X_eq_dec s rm = Returned r ->
  NoDup rm /\ incl rm s /\ NoDup r /\ forall x, In x r <-> In x s /\ ~ In x rm.
Proof.
  revert s. induction rm as [|e rm IH]; intros s Hs H; simpl in H.
  - injection H as <-. split; [constructor|]. split; [intros x []|].
    split; [exact Hs|]. intros x. simpl. tauto.
  - destruct (ListSet.set_mem X_eq_dec e s) eqn:He; [|discriminate H].
    apply ListSet.set_mem_correct1 in He.
    destruct (IH _ (ListSet.set_remove_nodup X_eq_dec e Hs) H)
      as (Hnd & Hincl & Hr & Hin).
    assert (Hnot : ~ In e rm).
    { intros Hc. apply Hincl in Hc.
      apply (ListSet.set_remove_iff X_eq_dec _ _ Hs) in Hc. tauto. }
    split; [now constructor|]. split; [|split; [exact Hr|]].
    + intros x [<-|Hx]; [exact He|].
      apply Hincl in Hx. apply (ListSet.set_remove_iff X_eq_dec _ _ Hs) in Hx. tauto.
    + intros x. rewrite Hin, (ListSet.set_remove_iff X_eq_dec _ _ Hs). split.
      * intros [[Hx Hne] Hn]. split; [exact Hx|]. intros [<-|Hc]; tauto.
      * intros [Hx Hn]. split; [split; [exact Hx|] |].
        -- intros ->. apply Hn. now left.
        -- intros Hc. apply Hn. now right.
Qed.

Lemma remove_each_returns (s : ListSet.set X) (rm : list X) :
  NoDup s -> NoDup rm -> incl rm s -> exists r, remove_each X_eq_dec s rm = Returned r.
Proof.
  revert s. induction rm as [|e rm IH]; intros s Hs Hnd Hincl; simpl.
  - eauto.
  - inversion Hnd as [|? ? Hnot Hnd']; subst.
    rewrite (ListSet.set_mem_correct2 X_eq_dec _ _ (Hincl e (or_introl eq_refl))).
    apply IH; [now apply ListSet.set_remove_nodup | exact Hnd' |].
    intros x Hx. apply (ListSet.set_remove_iff X_eq_dec _ _ Hs). split.
    + apply Hincl. now right.
    + intros ->. contradiction.
Qed.

(** The element a failed removal reports. *)
Lemma remove_each_key_error (s : ListSet.set X) (rm : list X) (e : X) :
  NoDup s -> remove_each X_eq_dec s rm = KeyError e ->
  exists before after,
    rm = before ++ e :: after /\ NoDup before /\ incl before s /\
    (~ In e s \/ In e before).
Proof.
  revert s. induction rm as [|a rm IH]; intros s Hs H; simpl in H; [discriminate H|].
  destruct (ListSet.set_mem X_eq_dec a s) eqn:Ha.
  - apply ListSet.set_mem_correct1 in Ha.
    destruct (IH _ (ListSet.set_remove_nodup X_eq_dec a Hs) H)
      as (before & after & -> & Hnd & Hincl & Hwhy).
    exists (a :: before), after. split; [reflexivity|]. split; [|split].
    + constructor; [|exact Hnd]. intros Hc. apply Hincl in Hc.
      apply (ListSet.set_remove_iff X_eq_dec _ _ Hs) in Hc. tauto.
    + intros x [<-|Hx]; [exact Ha|].
      apply Hincl in Hx. apply (ListSet.set_remove_iff X_eq_dec _ _ Hs) in Hx. tauto.
    + destruct Hwhy as [Hn|Hb]; [|right; now right].
      destruct (X_eq_dec e a) as [->|Hne]; [right; now left|].
      left. intros Hc. apply Hn.
      apply (ListSet.set_remove_iff X_eq_dec _ _ Hs). tauto.
  - injection H as <-. exists [], rm. split; [reflexivity|]. split; [|split].
    + constructor.
    + intros x [].
    + left. intros Hc.
      apply (ListSet.set_mem_correct2 X_eq_dec) in Hc. congruence.
Qed.

(** X11.  [np_list_intersection l1 l2] keeps the elements of [l1] that occur
    in [l2], each as many times as it occurs in [l1]: repetitions in [l1]
    stay, repetitions in [l2] do not count, and the result has no duplicate
    when [l1] has none. *)
Theorem np_list_intersection_elements (l1 l2 : list X) :
  (forall x, In x (np_list_intersection X_eq_dec l1 l2) <-> In x l1 /\ In x l2) /\
  (forall x, count_occ X_eq_dec (np_list_intersection X_eq_dec l1 l2) x
             = if contains X_eq_dec l2 x then count_occ X_eq_dec l1 x else 0) /\
  length (np_list_intersection X_eq_dec l1 l2) <= length l1 /\
  (NoDup l1 -> NoDup (np_list_intersection X_eq_dec l1 l2)).
Proof.
  unfold np_list_intersection. split; [|split; [|split]].
  - intros x. rewrite filter_In, contains_iff. tauto.
  - intros x. apply count_occ_filter.
  - apply filter_length_le.
  - apply NoDup_filter.
Qed.

(** X12.  Intersecting again with the same list changes nothing, a list
    intersected with itself is that list, and the two orders of the
    arguments give the same elements (not always the same list: the order and
    the repetitions are those of the first argument). *)
Theorem np_list_intersection_again (l1 l2 : list X) :
  np_list_intersection X_eq_dec (np_list_intersection X_eq_dec l1 l2) l2
  = np_list_intersection X_eq_dec l1 l2 /\
  np_list_intersection X_eq_dec l1 l1 = l1 /\
  (forall x, In x (np_list_intersection X_eq_dec l1 l2)
             <-> In x (np_list_intersection X_eq_dec l2 l1)).
Proof.
  unfold np_list_intersection. split; [|split].
  - apply filter_all. intros y Hy. now apply filter_In in Hy.
  - apply filter_all. intros y Hy. now apply contains_iff.
  - intros x. rewrite !filter_In, !contains_iff. tauto.
Qed.

(** X13.  [np_add_remove] returns a set exactly when the elements to remove
    are distinct members of the set; otherwise it ends with a [KeyError]. *)
Theorem np_add_remove_returns_iff (set_ : ListSet.set X) (to_remove : list X) (to_add : X) :
  NoDup set_ ->
  (exists result, np_add_remove X_eq_dec set_ to_remove to_add = Returned result)
  <-> NoDup to_remove /\ incl to_remove set_.
Proof.
  intros Hs. unfold np_add_remove. split.
  - intros [result H].
    destruct (remove_each X_eq_dec set_ to_remove) as [r|e] eqn:Hr; [|discriminate H].
    destruct (remove_each_returned _ Hs Hr) as (H1 & H2 & _). now split.
  - intros [Hnd Hincl].
    destruct (remove_each_returns Hs Hnd Hincl) as [r ->]. eauto.
Qed.

(** X14.  When [np_add_remove] returns, the result holds [to_add] and, of
    the rest, exactly the elements of the set that were not to be removed;
    [to_add] is in it even if it was among the elements to remove. *)
Theorem np_add_remove_members (set_ : ListSet.set X) (to_remove : list X) (to_add : X)
    (result : ListSet.set X) :
  NoDup set_ ->
  np_add_remove X_eq_dec set_ to_remove to_add = Returned result ->
  NoDup result /\ In to_add result /\
  forall x, In x result <-> x = to_add \/ (In x set_ /\ ~ In x to_remove).
Proof.
  intros Hs H. unfold np_add_remove in H.
  destruct (remove_each X_eq_dec set_ to_remove) as [r|e] eqn:Hr; [|discriminate H].
  injection H as <-.
  destruct (remove_each_returned _ Hs Hr) as (_ & _ & Hnd & Hin).
  split; [now apply ListSet.set_add_nodup|].
  split; [apply ListSet.set_add_iff; now left|].
  intros x. rewrite ListSet.set_add_iff, Hin. tauto.
Qed.

(** X15.  The [KeyError] of [np_add_remove] names the first element to
    remove that is not in the set or that was already removed, being listed
    twice; the elements before it were distinct members of the set. *)
Theorem np_add_remove_key_error (set_ : ListSet.set X) (to_remove : list X) (to_add : X)
    (element : X) :
  NoDup set_ ->
  np_add_remove X_eq_dec set_ to_remove to_add = KeyError element ->
  exists before after,
    to_remove = before ++ element :: after /\ NoDup before /\ incl before set_ /\
    (~ In element set_ \/ In element before).
Proof.
  intros Hs H. unfold np_add_remove in H.
  destruct (remove_each X_eq_dec set_ to_remove) as [r|e] eqn:Hr; [discriminate H|].
  injection H as <-. exact (remove_each_key_error _ Hs Hr).
Qed.

End Containers.

End NnumpyFacts.

(* ================================================================= *)
(** * [ppandas.py]: [pd_del], [pd_filter] on a dict, [pd_add_noise] *)

Module PpandasFacts.
Import Nnumpy Ppandas.

Section Frames.

Context {V : Type} (V_eq_dec : forall x y : V, {x = y} + {x <> y}).

(** *** Deleting columns *)





(** *** Counting distinct values, and adding noise *)

Lemma dict_has_set (d : dict) (k k' : string) (v : nat) :
  dict_has (dict_set d k v) k' = dict_has d k' || String.eqb k k'.
Proof.
  unfold dict_has. induction d as [|kv d IH]; simpl.
  - now rewrite orb_false_r.
  - destruct (String.eqb (fst kv) k) eqn:E; simpl.
    + apply String.eqb_eq in E. rewrite E.
      destruct (String.eqb k k'); [now rewrite orb_true_r | now rewrite orb_false_r].
    + rewrite IH. now rewrite orb_assoc.
Qed.

Lemma unique_counts_keys continuous sampled cols_exclude nsample
    (columns : @frame V) (clist : dict) (k : string) :
  dict_has (unique_counts V_eq_dec continuous sampled cols_exclude nsample columns clist) k
  = dict_has clist k || existsb (fun c => String.eqb (fst c) k) columns.
Proof.
  revert clist. induction columns as [|[ci s] columns IH]; intros clist; simpl.
  - now rewrite orb_false_r.
  - rewrite IH, dict_has_set. now rewrite orb_assoc.
Qed.

Lemma add_noise_loop_any_dict {L E} (noisy : L -> string -> @series V -> E + @series V)
    (level : L) (d1 d2 : dict) (columns : @frame V) printed (df2 : @frame V) :
  (forall c, In c columns -> dict_has d1 (fst c) = true) ->
  (forall c, In c columns -> dict_has d2 (fst c) = true) ->
  add_noise_loop noisy level d1 columns printed df2
  = add_noise_loop noisy level d2 columns printed df2.
Proof.
  revert printed df2. induction columns as [|[ci s] columns IH];
    intros printed df2 H1 H2; simpl; [reflexivity|].
  pose proof (H1 (ci, s) (or_introl eq_refl)) as E1.
  pose proof (H2 (ci, s) (or_introl eq_refl)) as E2.
  simpl in E1, E2. rewrite E1, E2.
  destruct (noisy level ci s) as [e|s']; [reflexivity|].
  apply IH; intros c Hc; [apply H1 | apply H2]; now right.
Qed.

Lemma add_noise_loop_every_column {L E} (noisy : L -> string -> @series V -> E + @series V)
    (level : L) (d : dict) (columns : @frame V) printed (df2 result : @frame V) lines :
  (forall c, In c columns -> dict_has d (fst c) = true) ->
  add_noise_loop noisy level d columns printed df2 = (lines, inr result) ->
  lines = printed ++ map (fun c => ("adding noise " ++ fst c)%string) columns /\
  forall c, In c columns -> exists s', noisy level (fst c) (snd c) = inr s'.
Proof.
  revert printed df2. induction columns as [|[ci s] columns IH];
    intros printed df2 Hd H; simpl in H.
  - injection H as <- _. split; [now rewrite app_nil_r | intros c []].
  - pose proof (Hd (ci, s) (or_introl eq_refl)) as E1. simpl in E1.
    rewrite E1 in H.
    destruct (noisy level ci s) as [e|s'] eqn:Hn; [discriminate H|].
    apply IH in H; [|intros c Hc; apply Hd; now right].
    destruct H as [-> Hall]. split.
    + simpl. now rewrite <- app_assoc.
    + intros c [<-|Hc]; [simpl; eauto | now apply Hall].
Qed.

Lemma getcontinuous_has_every_label sampled (df : @frame V) cols_exclude nsample c :
  In c df ->
  dict_has (pd_dtype_getcontinuous V_eq_dec sampled df cols_exclude nsample) (fst c) = true.
Proof.
  intros Hc. unfold pd_dtype_getcontinuous. rewrite unique_counts_keys. simpl.
  apply existsb_exists. exists c. split; [exact Hc | apply String.eqb_refl].
Qed.

(** X17.  [pd_dtype_getcontinuous] gives every column of the frame an entry,
    the excluded ones too, so that the test [ci in colsnum] of [pd_add_noise]
    holds for every column: [cols_exclude] changes nothing to what
    [pd_add_noise] does, and when it returns, every column has been through
    the noise and announced, whatever its dtype. *)
Theorem pd_add_noise_ignores_cols_exclude {L E} (sampled : Z -> string -> nat)
    (noisy : L -> string -> @series V -> E + @series V)
    (df : @frame V) (level : L) (cols_exclude : list string) :
  (forall c nsample, In c df ->
     dict_has (pd_dtype_getcontinuous V_eq_dec sampled df cols_exclude nsample) (fst c)
     = true) /\
  pd_add_noise V_eq_dec sampled noisy df level cols_exclude
  = pd_add_noise V_eq_dec sampled noisy df level [] /\
  (forall lines result,
     pd_add_noise V_eq_dec sampled noisy df level cols_exclude = (lines, inr result) ->
     lines = map (fun c => ("adding noise " ++ fst c)%string) df /\
     forall c, In c df -> exists s', noisy level (fst c) (snd c) = inr s').
Proof.
  split; [|split].
  - intros c nsample Hc. now apply getcontinuous_has_every_label.
  - unfold pd_add_noise. apply add_noise_loop_any_dict;
      intros c Hc; now apply getcontinuous_has_every_label.
  - intros lines result H. unfold pd_add_noise in H.
    apply add_noise_loop_every_column in H; [exact H|].
    intros c Hc. now apply getcontinuous_has_every_label.
Qed.

End Frames.

End PpandasFacts.

(** *** Filtering rows with a dict *)

Module PpandasFilter.
Import Nnumpy Ppandas.

Section Frames.

Context {V : Type} (veq : V -> V -> bool).

Lemma labels_select_rows mask (df : @frame V) : labels (select_rows mask df) = labels df.
Proof.
  unfold labels, select_rows. rewrite map_map. reflexivity.
Qed.

Lemma getitem_some (df : @frame V) key :
  In key (labels df) -> exists s, getitem df key = Some s /\ In (key, s) df.
Proof.
  unfold getitem, labels. induction df as [|[k s] df IH]; simpl; [intros []|].
  destruct (String.eqb_spec k key) as [->|Hne].
  - intros _. exists s. split; [reflexivity | now left].
  - intros [H|H]; [contradiction|].
    destruct (IH H) as (s' & E & Hin). exists s'. split; [exact E | now right].
Qed.

Lemma getitem_none (df : @frame V) key :
  getitem df key = None -> ~ In key (labels df).
Proof.
  unfold getitem, labels. induction df as [|[k s] df IH]; simpl; [tauto|].
  destruct (String.eqb_spec k key) as [->|Hne]; [discriminate|].
  intros H [Hk|Hin]; [contradiction | now apply IH].
Qed.

Lemma getitem_select_rows mask (df : @frame V) key :
  getitem (select_rows mask df) key
  = option_map (fun s => Series (dtype s) (select mask (values s))) (getitem df key).
Proof.
  unfold getitem, select_rows. induction df as [|[k s] df IH]; simpl; [reflexivity|].
  destruct (String.eqb k key); [reflexivity | exact IH].
Qed.

Lemma select_map {Y Z'} (f : Y -> Z') mask (l : list Y) :
  select mask (map f l) = map f (select mask l).
Proof.
  revert l. induction mask as [|b mask IH]; intros [|y l]; simpl; try reflexivity.
  destruct b; simpl; now rewrite IH.
Qed.

Lemma select_select {Y} (m m2 : list bool) (l : list Y) :
  length m2 = length m -> length l = length m ->
  select (select m m2) (select m l) = select (zip_with andb m m2) l.
Proof.
  revert m2 l. induction m as [|b m IH]; intros [|b2 m2] [|y l] H2 Hl;
    simpl in *; try discriminate; try reflexivity.
  destruct b; simpl; [destruct b2|]; rewrite IH by congruence; reflexivity.
Qed.

Lemma select_all {Y} (l : list Y) : select (repeat true (length l)) l = l.
Proof.
  induction l; simpl; congruence.
Qed.

Lemma zip_andb_all_l n (m : list bool) :
  length m = n -> zip_with andb (repeat true n) m = m.
Proof.
  intros <-. induction m; simpl; congruence.
Qed.

Lemma zip_andb_all_r {Y} (m : list bool) (l : list Y) :
  length l = length m -> zip_with andb m (map (fun _ => true) l) = m.
Proof.
  revert l. induction m as [|b m IH]; intros [|y l] H; simpl in *; try discriminate.
  - reflexivity.
  - rewrite andb_true_r, IH by congruence. reflexivity.
Qed.

Lemma zip_andb_assoc (a b c : list bool) :
  zip_with andb (zip_with andb a b) c = zip_with andb a (zip_with andb b c).
Proof.
  revert b c. induction a as [|x a IH]; intros [|y b] [|z c]; simpl; try reflexivity.
  now rewrite IH, andb_assoc.
Qed.

Lemma mask_by_index {Y} (f : Y -> bool) (g : nat -> bool) (l : list Y) (a : nat) :
  zip_with andb (map f l) (map g (seq a (length l)))
  = map (fun i => match nth_error l (i - a) with Some y => f y | None => true end
                  && g i) (seq a (length l)).
Proof.
  revert a. induction l as [|y l IH]; intros a; simpl; [reflexivity|].
  rewrite Nat.sub_diag. simpl. f_equal. rewrite IH.
  apply map_ext_in. intros i Hi. apply in_seq in Hi.
  replace (i - a) with (S (i - S a)) by lia. reflexivity.
Qed.

Lemma select_rows_all n (df : @frame V) :
  rectangular n df -> select_rows (repeat true n) df = df.
Proof.
  unfold select_rows. induction 1 as [|[k [dt vals]] df Hc _ IH]; simpl; [reflexivity|].
  simpl in Hc. subst n. now rewrite select_all, IH.
Qed.

Lemma select_rows_twice n (df : @frame V) (m m2 : list bool) :
  rectangular n df -> length m = n -> length m2 = n ->
  select_rows (select m m2) (select_rows m df) = select_rows (zip_with andb m m2) df.
Proof.
  intros Hdf Hm Hm2. unfold select_rows. rewrite map_map.
  apply map_ext_in. intros c Hc. simpl.
  unfold rectangular in Hdf. rewrite Forall_forall in Hdf.
  rewrite select_select by (rewrite ?(Hdf _ Hc); congruence). reflexivity.
Qed.

Lemma pd_filter_dict_from (n : nat) (df : @frame V) (items : list (string * V))
    (m : list bool) :
  rectangular n df -> length m = n ->
  (forall kv, In kv items -> In (fst kv) (labels df)) ->
  pd_filter_dict veq (select_rows m df) items
  = Returned (select_rows
                (zip_with andb m (map (row_matches veq df items) (seq 0 n))) df).
Proof.
  intros Hdf. revert m. induction items as [|[key val] items IH]; intros m Hm Hkeys.
  - simpl. rewrite zip_andb_all_r by (now rewrite length_seq). reflexivity.
  - simpl pd_filter_dict. rewrite getitem_select_rows.
    destruct (getitem_some df key (Hkeys (key, val) (or_introl eq_refl)))
      as (s & Hs & Hin).
    rewrite Hs. cbn [option_map values].
    assert (Hlen : length (values s) = n).
    { unfold rectangular in Hdf. rewrite Forall_forall in Hdf. exact (Hdf _ Hin). }
    rewrite <- select_map.
    rewrite (select_rows_twice m _ Hdf Hm) by (now rewrite length_map).
    rewrite IH.
    + f_equal. f_equal. rewrite zip_andb_assoc. f_equal.
      rewrite <- Hlen at 1 2. rewrite mask_by_index, Hlen.
      apply map_ext. intros i. simpl. rewrite Hs, Nat.sub_0_r. reflexivity.
    + rewrite zip_with_length; rewrite ?length_map; congruence.
    + intros kv Hkv. apply Hkeys. now right.
Qed.

(** X18.  On a frame whose columns all have [n] values and for a dict whose
    keys are labels of the frame, the successive filters of [pd_filter] are
    one filter: row [i] is kept exactly when it matches every item of the
    dict, each tested on the frame as it was given; the order of the items
    plays no part and the columns keep their labels and dtypes. *)
Theorem pd_filter_dict_rows (n : nat) (df : @frame V) (items : list (string * V)) :
  rectangular n df ->
  (forall kv, In kv items -> In (fst kv) (labels df)) ->
  pd_filter_dict veq df items
  = Returned (select_rows (map (row_matches veq df items) (seq 0 n)) df).
Proof.
  intros Hdf Hkeys.
  rewrite <- (select_rows_all Hdf) at 1.
  rewrite (@pd_filter_dict_from n df items (repeat true n) Hdf
             (repeat_length true n) Hkeys).
  rewrite zip_andb_all_l by (now rewrite length_map, length_seq). reflexivity.
Qed.

(** X19.  [pd_filter] on a dict returns a frame exactly when every key is a
    label of the frame, however many rows there are; otherwise it ends with
    the [KeyError] of the first key that is not a label. *)
Theorem pd_filter_dict_key_error (df : @frame V) (items : list (string * V)) :
  ((exists result, pd_filter_dict veq df items = Returned result)
   <-> forall kv, In kv items -> In (fst kv) (labels df)) /\
  (forall key, pd_filter_dict veq df items = KeyError key ->
     exists before val after,
       items = before ++ (key, val) :: after /\
       ~ In key (labels df) /\
       forall kv, In kv before -> In (fst kv) (labels df)).
Proof.
  split.
  - revert df. induction items as [|[key val] items IH]; intros df; simpl.
    + split; [intros _ kv [] | eauto].
    + destruct (getitem df key) as [s|] eqn:Hs.
      * rewrite IH, labels_select_rows. split.
        -- intros H kv [<-|Hkv]; [|now apply H].
           simpl. destruct (in_dec string_dec key (labels df)) as [Hin|Hn];
             [exact Hin|].
           exfalso. unfold getitem in Hs.
           destruct (find _ df) as [c|] eqn:Hf; [|discriminate Hs].
           apply find_some in Hf. destruct Hf as [Hc E].
           apply String.eqb_eq in E. apply Hn. unfold labels.
           rewrite <- E. now apply in_map.
        -- intros H kv Hkv. apply H. now right.
      * split; [intros [r H]; discriminate H|].
        intros H. exfalso. apply (getitem_none _ _ Hs).
        exact (H (key, val) (or_introl eq_refl)).
  - revert df. induction items as [|[key val] items IH]; intros df k H;
      simpl in H; [discriminate H|].
    destruct (getitem df key) as [s|] eqn:Hs.
    + apply IH in H. destruct H as (before & v & after & -> & Hn & Hb).
      rewrite labels_select_rows in Hn.
      exists ((key, val) :: before), v, after.
      split; [reflexivity|]. split; [exact Hn|].
      intros kv [<-|Hkv].
      * simpl. destruct (in_dec string_dec key (labels df)) as [Hin|Hnot];
          [exact Hin|].
        exfalso. unfold getitem in Hs.
        destruct (find _ df) as [c|] eqn:Hf; [|discriminate Hs].
        apply find_some in Hf. destruct Hf as [Hc E].
        apply String.eqb_eq in E. apply Hnot. unfold labels.
        rewrite <- E. now apply in_map.
      * specialize (Hb kv Hkv). now rewrite labels_select_rows in Hb.
    + injection H as <-. exists [], val, items.
      split; [reflexivity|]. split; [now apply getitem_none | intros kv []].
Qed.

End Frames.

End PpandasFilter.

(* ================================================================= *)
(** * Witnesses of the further properties *)

Module MoreWitnesses.
Import Samples SampleFacts MoreSamples Nnumpy Ppandas.

Lemma wf_nan_row : wf nan_row.
Proof. split; [reflexivity | repeat constructor]. Qed.

Lemma wf_no_columns : wf no_columns.
Proof. split; [reflexivity | repeat constructor]. Qed.

Lemma wf_unit_rows : wf unit_rows.
Proof. split; [reflexivity | repeat constructor]. Qed.

Lemma unit_rows_norms u : In u (rows unit_rows) -> Exact.euclidean_norm u = 1%R.
Proof.
  intros [<-|[<-|[]]]; unfold Exact.euclidean_norm; simpl;
    match goal with |- sqrt ?x = _ => replace x with 1%R by lra end; apply sqrt_1.
Qed.

Lemma nodup_test1_set : NoDup test1_set.
Proof.
  unfold test1_set. repeat constructor; simpl; intuition discriminate.
Qed.

(** [test1] of [nnumpy.py]. *)
Example test1_intersection :
  np_list_intersection Z.eq_dec test1_l1 test1_l2 = [1; 3]%Z.
Proof. vm_compute. reflexivity. Qed.

Example test1_add_remove :
  np_add_remove Z.eq_dec test1_set [1; 2]%Z 6%Z = Returned [3; 4; 5; 6]%Z.
Proof. vm_compute. reflexivity. Qed.

Lemma rectangular_shops : rectangular 3 shops.
Proof. repeat constructor. Qed.

Lemma shops_keys kv :
  In kv [("shop_id"%string, 11%Z)] -> In (fst kv) (labels shops).
Proof. intros [<-|[]]. simpl. now left. Qed.

End MoreWitnesses.

Import MoreSamples MoreWitnesses Nnumpy Ppandas.


Lemma ragged_input_refused_witness :
  ("cosine"%string = "euclidean"%string \/ "cosine"%string = "cosine"%string) /\
  (wfb doc_left = false \/ wfb ragged = false) /\
  exists tr,
    raises (tf_cdist doc_left ragged "cosine") tr
      (ValueError "Can't convert non-rectangular Python sequence to Tensor.") /\
    forallb inspects tr = true /\
    (wfb doc_left = false -> tr = [ConvertToTensor]).
Proof.
  split; [right; reflexivity|]. split; [right; reflexivity|].
  exact (ragged_input_refused doc_left ragged (or_intror eq_refl) (or_intror eq_refl)).
Defined.

Lemma get_tensor_sqr_entries_witness :
  wf doc_left /\
  exists c,
    returns (__get_tensor_sqr doc_left (-1, 1)%Z (1, 3)) [Pow; ReduceSum; Reshape; Tile] c /\
    nrows c = nrows doc_left /\ ncols c = 3 /\ wf c /\
    forall i j u, nth_error (rows doc_left) i = Some u -> j < 3 ->
      entry c i j = Some (reduce_sum (map (fun a => num_mul a a) u)).
Proof.
  split; [exact wf_doc_left|].
  exact (proj1 (get_tensor_sqr_entries 3 wf_doc_left)).
Defined.

Lemma get_tensor_reshaped_norm_entries_witness :
  wf doc_left /\
  exists r,
    returns (__get_tensor_reshaped_norm doc_left (1, -1)%Z) [Norm; Reshape] r /\
    nrows r = 1 /\ ncols r = nrows doc_left /\ wf r /\
    forall j u, nth_error (rows doc_left) j = Some u -> entry r 0 j = Some (norm u).
Proof.
  split; [exact wf_doc_left|].
  exact (proj2 (get_tensor_reshaped_norm_entries wf_doc_left)).
Defined.

Lemma euclidean_nan_reported_as_zero_witness :
  wf nan_row /\ wf doc_right /\ ncols nan_row = ncols doc_right /\
  exists distance,
    returns (tf_cdist_euclidean nan_row doc_right) euclidean_calls distance /\
    forall i j u v,
      nth_error (rows nan_row) i = Some u -> nth_error (rows doc_right) j = Some v ->
      In S754_nan u \/ In S754_nan v ->
      entry distance i j = Some (S754_zero false).
Proof.
  split; [exact wf_nan_row|]. split; [exact wf_doc_right|]. split; [reflexivity|].
  exact (euclidean_nan_reported_as_zero wf_nan_row wf_doc_right eq_refl).
Defined.

Lemma zero_width_inputs_witness :
  wf no_columns /\ ncols no_columns = 0 /\
  exists distance,
    returns (tf_cdist_cos no_columns no_columns) cos_calls distance /\
    forall i j, i < nrows no_columns -> j < nrows no_columns ->
      entry distance i j = Some S754_nan.
Proof.
  split; [exact wf_no_columns|]. split; [reflexivity|].
  exact (proj2 (zero_width_inputs wf_no_columns wf_no_columns eq_refl eq_refl)).
Defined.

Lemma exchanged_arguments_transpose_witness :
  wf exact_left /\ wf exact_right /\ ncols exact_left = ncols exact_right /\
  exists there back,
    returns (tf_cdist_euclidean exact_left exact_right) euclidean_calls there /\
    returns (tf_cdist_euclidean exact_right exact_left) euclidean_calls back /\
    forall i j, i < nrows exact_left -> j < nrows exact_right ->
      exists d, entry there i j = Some d /\ entry back j i = Some d.
Proof.
  split; [exact wf_exact_left|]. split; [exact wf_exact_right|]. split; [reflexivity|].
  exact (proj1 (exchanged_arguments_transpose wf_exact_left wf_exact_right eq_refl)).
Defined.

Lemma euclidean_zero_iff_same_row_witness :
  wf exact_left /\ wf exact_right /\ ncols exact_left = ncols exact_right /\
  exists distance,
    returns (tf_cdist_euclidean exact_left exact_right) euclidean_calls distance /\
    forall i j u v,
      nth_error (rows exact_left) i = Some u -> nth_error (rows exact_right) j = Some v ->
      (entry distance i j = Some 0%R <-> u = v).
Proof.
  split; [exact wf_exact_left|]. split; [exact wf_exact_right|]. split; [reflexivity|].
  exact (euclidean_zero_iff_same_row wf_exact_left wf_exact_right eq_refl).
Defined.

Lemma euclidean_triangle_inequality_witness :
  wf exact_left /\ wf exact_right /\ wf unit_rows /\
  ncols exact_left = ncols exact_right /\ ncols exact_right = ncols unit_rows /\
  exists ab bc ac,
    returns (tf_cdist_euclidean exact_left exact_right) euclidean_calls ab /\
    returns (tf_cdist_euclidean exact_right unit_rows) euclidean_calls bc /\
    returns (tf_cdist_euclidean exact_left unit_rows) euclidean_calls ac /\
    forall i j k, i < nrows exact_left -> j < nrows exact_right -> k < nrows unit_rows ->
      exists x y z,
        entry ab i j = Some x /\ entry bc j k = Some y /\ entry ac i k = Some z /\
        (z <= x + y)%R.
Proof.
  split; [exact wf_exact_left|]. split; [exact wf_exact_right|].
  split; [exact wf_unit_rows|]. split; [reflexivity|]. split; [reflexivity|].
  exact (euclidean_triangle_inequality wf_exact_left wf_exact_right wf_unit_rows
           eq_refl eq_refl).
Defined.

Lemma unit_rows_relate_the_distances_witness :
  wf unit_rows /\ ncols unit_rows = ncols unit_rows /\
  (forall u, In u (rows unit_rows) -> Exact.euclidean_norm u = 1%R) /\
  exists euclidean cosine,
    returns (tf_cdist unit_rows unit_rows "euclidean") euclidean_calls euclidean /\
    returns (tf_cdist unit_rows unit_rows "cosine") cos_calls cosine /\
    forall i j, i < nrows unit_rows -> j < nrows unit_rows ->
      exists x y,
        entry euclidean i j = Some x /\ entry cosine i j = Some y /\
        (x * x = 2 * y)%R.
Proof.
  split; [exact wf_unit_rows|]. split; [reflexivity|]. split; [exact unit_rows_norms|].
  exact (unit_rows_relate_the_distances wf_unit_rows wf_unit_rows eq_refl
           unit_rows_norms unit_rows_norms).
Defined.

Lemma np_add_remove_returns_iff_witness :
  NoDup test1_set /\
  ((exists result, np_add_remove Z.eq_dec test1_set [1; 2]%Z 6%Z = Returned result)
   <-> NoDup [1; 2]%Z /\ incl [1; 2]%Z test1_set).
Proof.
  split; [exact nodup_test1_set|].
  exact (NnumpyFacts.np_add_remove_returns_iff Z.eq_dec [1; 2]%Z 6%Z nodup_test1_set).
Defined.

Lemma np_add_remove_members_witness :
  NoDup test1_set /\
  np_add_remove Z.eq_dec test1_set [1; 2]%Z 6%Z = Returned [3; 4; 5; 6]%Z /\
  NoDup [3; 4; 5; 6]%Z /\ In 6%Z [3; 4; 5; 6]%Z /\
  forall x, In x [3; 4; 5; 6]%Z
            <-> x = 6%Z \/ (In x test1_set /\ ~ In x [1; 2]%Z).
Proof.
  split; [exact nodup_test1_set|]. split; [exact test1_add_remove|].
  exact (NnumpyFacts.np_add_remove_members Z.eq_dec [1; 2]%Z 6%Z
           nodup_test1_set test1_add_remove).
Defined.

Lemma np_add_remove_key_error_witness :
  NoDup test1_set /\
  np_add_remove Z.eq_dec test1_set [1; 7; 2]%Z 6%Z = KeyError 7%Z /\
  exists before after,
    [1; 7; 2]%Z = before ++ 7%Z :: after /\ NoDup before /\ incl before test1_set /\
    (~ In 7%Z test1_set \/ In 7%Z before).
Proof.
  assert (H : np_add_remove Z.eq_dec test1_set [1; 7; 2]%Z 6%Z = KeyError 7%Z)
    by (vm_compute; reflexivity).
  split; [exact nodup_test1_set|]. split; [exact H|].
  exact (NnumpyFacts.np_add_remove_key_error Z.eq_dec [1; 7; 2]%Z 6%Z
           nodup_test1_set H).
Defined.

Lemma pd_filter_dict_rows_witness :
  rectangular 3 shops /\
  (forall kv, In kv [("shop_id"%string, 11%Z)] -> In (fst kv) (labels shops)) /\
  pd_filter_dict Z.eqb shops [("shop_id"%string, 11%Z)]
  = Returned (select_rows
                (map (row_matches Z.eqb shops [("shop_id"%string, 11%Z)]) (seq 0 3))
                shops).
Proof.
  split; [exact rectangular_shops|]. split; [exact shops_keys|].
  exact (PpandasFilter.pd_filter_dict_rows Z.eqb _ rectangular_shops shops_keys).
Defined.
